(** * The matplotlib renderer of HoloViews and the link registry

    A shallow embedding of [holoviews/plotting/mpl/renderer.py]
    (class [MPLRenderer]) together with a model of the link registry
    and link resolver exercised by
    [holoviews/tests/plotting/bokeh/testlinks.py].

    Python dictionaries are finite maps with string keys, exceptions
    are an explicit [Raise] outcome, and every effect on the outside
    world (canvas draws, encoder runs, file writes) is appended to a
    trace carried by the [World].  matplotlib itself is not part of the
    repository: its bounding-box algebra and its float arithmetic are
    kept abstract behind two type classes, and what a figure answers to
    the calls made on it is data of the [Figure] record. *)

From Stdlib Require Import QArith.
From stdpp Require Import gmap strings list fin_maps.

Set Warnings "-register-all".

Open Scope Z_scope.
Open Scope string_scope.

(** ** Exceptions and outcomes *)

Inductive PyExn :=
  | Exception (msg : string)        (* raise Exception(msg) *)
  | KeyError (key : string)
  | AttributeError (attr : string)
  | TypeError (what : string)
  | ZeroDivisionError
  | IndexError
  | UnboundLocalError (var : string)
  | ExternalError (origin : string). (* raised inside an external library *)

Inductive Result (A : Type) :=
  | Ok (a : A)
  | Raise (e : PyExn).
Arguments Ok {A} a.
Arguments Raise {A} e.

(** Sequencing: the first exception raised ends the computation. *)
#[global] Instance Result_bind : MBind Result := λ A B f r,
  match r with
  | Ok a => f a
  | Raise e => Raise e
  end.

(** ** Numbers and bounding boxes: the interface used of matplotlib *)

Class FloatOps (Num : Type) := {
  num_of_Z : Z → Num;
  num_mul : Num → Num → Num;
  num_div : Num → Num → Num;       (* divisor known to be non-zero *)
  num_is_zero : Num → bool;
}.

Class BboxOps (Num Bbox : Type) := {
  Bbox_width : Bbox → Num;
  Bbox_height : Bbox → Num;
  Bbox_intersection : Bbox → Bbox → option Bbox; (* None: no overlap *)
  Bbox_union : list Bbox → Bbox;
  Bbox_padded : Bbox → Num → Bbox;
  (* TransformedBbox(b, Affine2D().scale(s)) *)
  TransformedBbox_scale : Bbox → Num → Bbox;
}.

(** ** Python values held in the dictionaries of the renderer *)

Section Values.
Context {Num Bbox : Type}.

Inductive PyVal :=
  | VNone
  | VStr (s : string)
  | VInt (n : Z)
  | VNum (x : Num)
  | VTuple (xs : list PyVal)
  | VList (xs : list PyVal)
  | VBbox (b : Bbox)
  | VObj (ident : Z).             (* any other object, by identity *)

(** [v == s] for a string literal [s]. *)
Definition py_eq_str (v : PyVal) (s : string) : bool :=
  match v with
  | VStr t => bool_decide (t = s)
  | _ => false
  end.

(** [dict(a, **b)]: the entries of [b] win. *)
Definition py_dict (a b : gmap string PyVal) : gmap string PyVal := b ∪ a.
End Values.
Arguments PyVal : clear implicits.

(** ** Figures, renderer instances and the world *)

Section Renderer.
Context {Num Bbox : Type} `{!FloatOps Num} `{!BboxOps Num Bbox}.

Abbreviation Val := (PyVal Num Bbox).
Abbreviation Dict := (gmap string (PyVal Num Bbox)).

(** A clip path, as far as [_compute_bbox] looks at it. *)
Record ClipPath := {
  (* clip_path.get_fully_transformed_path().get_extents() *)
  get_extents : Result Bbox;
}.

(** An extra artist of a figure, as seen by [_compute_bbox]: what each
    of the calls made on it answers, or the exception it raises. *)
Record Artist := {
  get_window_extent : Result Bbox;
  get_clip_on : Result bool;
  get_clip_box : Result (option Bbox);
  get_clip_path : Result (option ClipPath);
}.

(** How [fig.set_dpi(self.dpi)] followed by [fig.canvas.draw()] ends. *)
Inductive DrawPass :=
  | SetDpiRaises (e : PyExn)        (* set_dpi raised, nothing was drawn *)
  | DrawRaises (e : PyExn)          (* the dpi was set, the draw raised *)
  | Drawn.                          (* both returned *)

(** A matplotlib figure: its identity and what it answers to the calls
    made on it. *)
Record Figure := {
  fig_id : Z;                               (* id(fig) *)
  get_facecolor : Val;
  get_edgecolor : Val;
  draw_pass : DrawPass;
  _cachedRenderer : option Z;               (* absent: AttributeError *)
  get_tightbbox : Result Bbox;
  get_default_bbox_extra_artists : list Artist;
  (* fig.canvas.print_figure(bytes_io, **kw); bytes_io.getvalue() *)
  print_figure : Dict → Result (list Byte.byte);
  axes3d : list Z;                          (* the Axes3D among get_axes() *)
  mpld3_fig_to_dict : Val;
  mpld3_fig_to_html : string;
}.

(** [fig.set_dpi(self.dpi)], also behind [fig.dpi = self.dpi]. *)
Definition set_dpi (fig : Figure) : Result unit :=
  match draw_pass fig with
  | SetDpiRaises e => Raise e
  | DrawRaises _ | Drawn => Ok ()
  end.

(** [fig.set_dpi(self.dpi); fig.canvas.draw()]: [Ok] when the draw was
    reached and returned. *)
Definition canvas_draw (fig : Figure) : Result unit :=
  match draw_pass fig with
  | SetDpiRaises e | DrawRaises e => Raise e
  | Drawn => Ok ()
  end.

Inductive Mode := ModeDefault | ModeD3 | ModeNbagg.

(** The parameters of an [MPLRenderer] instance read by the code. *)
Record MPLRenderer := {
  dpi : option Z;
  fps : Z;
  mode : Mode;
  savefig_pad_inches : Num;       (* plt.rcParams['savefig.pad_inches'] *)
}.

Inductive Event :=
  | EvSetDpi (fig : Z) (d : option Z)
  | EvDraw (fig : Z)
  | EvPrintFigure (fig : Z) (kw : Dict)
  | EvMouseInit (ax : Z)
  | EvManagerShow (fig : Z) (num : Z)
  | EvMpld3 (fig : Z)
  | EvAnim (plot : Z) (fps : Z)
  | EvAnimSave (anim : Z) (suffix writer : string) (opts : Dict)
  | EvFileOpen (name : string)
  | EvFileWrite (name : string) (data : list Byte.byte).

Record World := {
  drawn : gmap Z Bbox;            (* MPLRenderer.drawn *)
  counter : Z;                    (* self.counter *)
  files : gmap string (list Byte.byte);
  trace : list Event;
}.

Definition emit (e : Event) (w : World) : World :=
  {| drawn := drawn w; counter := counter w; files := files w;
     trace := trace w ++ [e] |}.

Definition set_drawn (k : Z) (b : Bbox) (w : World) : World :=
  {| drawn := <[k := b]> (drawn w); counter := counter w;
     files := files w; trace := trace w |}.

(** ** [_compute_bbox] *)

(** [Bbox.intersection(bbox, bound)] when [bbox] is still a box. *)
Definition intersect (bbox : option Bbox) (bound : Bbox) : option Bbox :=
  match bbox with
  | Some b => Bbox_intersection b bound
  | None => None
  end.

(** Lines 248-257: the window extent of one artist, clipped.  The calls
    are made in the order of the source; the first to raise ends the
    computation. *)
Definition clipped_extent (a : Artist) : Result (option Bbox) :=
  bbox ← get_window_extent a;
  clip_on ← get_clip_on a;
  if (clip_on : bool) then
    clip_box ← get_clip_box a;
    let bbox1 :=
      match clip_box with
      | Some box => Bbox_intersection bbox box
      | None => Some bbox
      end in
    clip_path ← get_clip_path a;
    match clip_path, bbox1 with
    | Some path, Some _ =>
        extents ← get_extents path;
        Ok (intersect bbox1 extents)
    | _, _ => Ok bbox1
    end
  else Ok (Some bbox).

(** Lines 258-259. *)
Definition keep_extent (bbox : option Bbox) : option Bbox :=
  match bbox with
  | Some b =>
      if negb (num_is_zero (Bbox_width b)) || negb (num_is_zero (Bbox_height b))
      then Some b else None
  | None => None
  end.

(** Lines 246-260: the loop over the extra artists. *)
Fixpoint bbox_filtered (artists : list Artist) : Result (list Bbox) :=
  match artists with
  | [] => Ok []
  | a :: rest =>
      match clipped_extent a with
      | Raise e => Raise e
      | Ok bbox =>
          match bbox_filtered rest with
          | Raise e => Raise e
          | Ok tl =>
              match keep_extent bbox with
              | Some b => Ok (b :: tl)
              | None => Ok tl
              end
          end
      end
  end.

(** [1.0 / self.dpi] *)
Definition inverse_dpi (d : option Z) : Result Num :=
  match d with
  | None => Raise (TypeError "float / NoneType")
  | Some 0 => Raise ZeroDivisionError
  | Some n => Ok (num_div (num_of_Z 1) (num_of_Z n))
  end.

(** Lines 243-267, after the draw: the padded tight bounding box. *)
Definition tight_bbox (self : MPLRenderer) (fig : Figure) : Result Bbox :=
  match _cachedRenderer fig with
  | None => Raise (AttributeError "_cachedRenderer")
  | Some _ =>
      match get_tightbbox fig with
      | Raise e => Raise e
      | Ok bbox_inches =>
          match bbox_filtered (get_default_bbox_extra_artists fig) with
          | Raise e => Raise e
          | Ok [] => Ok (Bbox_padded bbox_inches (savefig_pad_inches self))
          | Ok filtered =>
              match inverse_dpi (dpi self) with
              | Raise e => Raise e
              | Ok s =>
                  let bbox_extra :=
                    TransformedBbox_scale (Bbox_union filtered) s in
                  Ok (Bbox_padded (Bbox_union [bbox_inches; bbox_extra])
                                  (savefig_pad_inches self))
              end
          end
      end
  end.

(** Lines 241-267 with their effects: [set_dpi], then the draw. *)
Definition draw_and_measure (self : MPLRenderer) (fig : Figure) (w : World)
  : Result Bbox * World :=
  let w1 := emit (EvSetDpi (fig_id fig) (dpi self)) w in
  match draw_pass fig with
  | SetDpiRaises e => (Raise e, w1)
  | DrawRaises e => (Raise e, emit (EvDraw (fig_id fig)) w1)
  | Drawn => (tight_bbox self fig, emit (EvDraw (fig_id fig)) w1)
  end.

(** [_compute_bbox(self, fig, kw)].  The dictionary [kw] is updated in
    place and returned; the second component is the content of that
    one dictionary when the call ends, whether it returned or raised. *)
Definition _compute_bbox (self : MPLRenderer) (fig : Figure) (kw : Dict)
    (w : World) : Result unit * Dict * World :=
  match kw !! "bbox_inches" with
  | None => (Raise (KeyError "bbox_inches"), kw, w)
  | Some crop =>
      if py_eq_str crop "tight" then
        match kw !! "format" with
        | None => (Raise (KeyError "format"), kw, w)
        | Some fmt =>
            if py_eq_str fmt "png" then
              match drawn w !! fig_id fig with
              | None =>
                  match draw_and_measure self fig w with
                  | (Raise e, w1) => (Raise e, kw, w1)
                  | (Ok bbox_inches, w1) =>
                      (Ok tt, <["bbox_inches" := VBbox bbox_inches]> kw,
                       set_drawn (fig_id fig) bbox_inches w1)
                  end
              | Some cached =>
                  (Ok tt, <["bbox_inches" := VBbox cached]> kw, w)
              end
            else (Ok tt, kw, w)
        end
      else (Ok tt, kw, w)
  end.

(** A request for the tightly cropped png. *)
Definition tight_png (kw : Dict) : Prop :=
  kw !! "bbox_inches" = Some (VStr "tight") ∧
  kw !! "format" = Some (VStr "png").

(** ** Plots, animations and the surroundings of the renderer *)

Inductive Payload :=
  | PBytes (bs : list Byte.byte)
  | PText (s : string)
  | PDict (d : Val).

(** A matplotlib animation: [hasattr(anim, '_encoded_video')], and the
    content of the file [anim.save] leaves behind. *)
Record Animation := {
  anim_id : Z;
  has_encoded_video : bool;
  anim_save : string → Dict → Result (list Byte.byte);
}.

Record Plot := {
  plot_id : Z;
  state : Figure;                          (* plot.state *)
  anim : Z → Result Animation;             (* plot.anim(fps=...) *)
  (* new_figure_manager_given_figure(num, fig) *)
  new_figure_manager : Z → option Z;
}.

Inductive HvObj :=
  | HvNone
  | HvElement (ident : Z)
  | HvHoloMap (ident : Z) (last : HvObj).

(** What the renderer takes from outside its own file: the running
    interpreter and matplotlib version, the base class [Renderer]
    ([_validate], [encode], [MIME_TYPES]), the option [Store] and the
    default of [MPLPlot.fig_inches]. *)
Record Env := {
  py_major : Z;                            (* sys.version_info[0] *)
  mpl_version : string;                    (* mpl.__version__ *)
  _validate : HvObj → option string → Result (option Plot * option string);
  MIME_TYPES : gmap string string;
  encode : Payload → option string → string → Result (list Byte.byte);
  decode_utf8 : list Byte.byte → Result string;
  lookup_options : HvObj → Result Dict;    (* Store.lookup_options(..).options *)
  MPLPlot_fig_inches : Val;
}.

Context (env : Env).

Definition fmt_val (fmt : option string) : Val :=
  match fmt with Some s => VStr s | None => VNone end.

Definition dpi_val (d : option Z) : Val :=
  match d with Some n => VInt n | None => VNone end.

(** ['%s' % fmt] *)
Definition fmt_str (fmt : option string) : string :=
  match fmt with Some s => s | None => "None" end.

(** [{'dpi': self.dpi} if self.dpi else {}] *)
Definition dpi_if_truthy (d : option Z) : Dict :=
  match d with
  | None | Some 0 => ∅
  | Some n => {[ "dpi" := VInt n ]}
  end.

(** [{'dpi': self.dpi} if self.dpi is not None else {}] *)
Definition dpi_if_not_None (d : option Z) : Dict :=
  match d with
  | None => ∅
  | Some n => {[ "dpi" := VInt n ]}
  end.

Definition bump_counter (w : World) : World :=
  {| drawn := drawn w; counter := counter w + 1; files := files w;
     trace := trace w |}.

Definition emit_all (es : list Event) (w : World) : World :=
  {| drawn := drawn w; counter := counter w; files := files w;
     trace := trace w ++ es |}.

(** ** [_figure_data] *)

(** [get_figure_manager]: the manager, after [mouse_init] on each 3D axis. *)
Definition get_figure_manager (plot : Plot) (w : World) : option Z * World :=
  (new_figure_manager plot (counter w),
   emit_all (EvMouseInit <$> axes3d (state plot)) w).

(** Lines 177-184. *)
Definition figure_kw (self : MPLRenderer) (fig : Figure)
    (fmt : option string) (bbox_inches : Val) (kwargs : Dict) : Dict :=
  py_dict
    (<["format" := fmt_val fmt]>
     (<["facecolor" := get_facecolor fig]>
      (<["edgecolor" := get_edgecolor fig]>
       (<["dpi" := dpi_val (dpi self)]>
        (<["bbox_inches" := bbox_inches]> ∅)))))
    kwargs.

(** Lines 192-197. *)
Definition print_and_decode (fig : Figure) (fmt : option string)
    (kw : Dict) (w : World) : Result Payload * World :=
  let w1 := emit (EvPrintFigure (fig_id fig) kw) w in
  match print_figure fig kw with
  | Raise e => (Raise e, w1)
  | Ok data =>
      if bool_decide (fmt = Some "svg") then
        match decode_utf8 env data with
        | Raise e => (Raise e, w1)
        | Ok text => (Ok (PText text), w1)
        end
      else (Ok (PBytes data), w1)
  end.

Definition _figure_data (self : MPLRenderer) (plot : Plot)
    (fmt : option string) (bbox_inches : Val) (kwargs : Dict) (w : World)
  : Result Payload * World :=
  let fig := state plot in
  match mode self with
  | ModeNbagg =>
      match get_figure_manager plot w with
      | (None, w1) => (Ok (PText ""), w1)
      | (Some _, w1) =>
          (Ok (PText ""),
           emit (EvManagerShow (fig_id fig) (counter w1)) (bump_counter w1))
      end
  | ModeD3 =>
      let w0 := emit (EvSetDpi (fig_id fig) (dpi self)) w in
      match set_dpi fig with
      | Raise e => (Raise e, w0)
      | Ok _ =>
          let w1 := emit (EvMpld3 (fig_id fig)) w0 in
          if bool_decide (fmt = Some "json")
          then (Ok (PDict (mpld3_fig_to_dict fig)), w1)
          else (Ok (PText ("<center>" ++ mpld3_fig_to_html fig ++ "<center/>")),
                w1)
      end
  | ModeDefault =>
      let kw := figure_kw self fig fmt bbox_inches kwargs in
      (* try: kw = self._compute_bbox(fig, kw)  except: pass *)
      let '(_, kw1, w1) := _compute_bbox self fig kw w in
      print_and_decode fig fmt kw1 w1
  end.

(** ** [_anim_data] *)

(** [<format name> : (animation writer, format, anim_kwargs, extra_args)] *)
Definition ANIMATION_OPTS
  : gmap string (string * option string * Dict * Val) :=
  <["webm" := ("ffmpeg", Some "webm", ∅,
               VList [VStr "-vcodec"; VStr "libvpx"; VStr "-b"; VStr "1000k"])]>
  (<["mp4" := ("ffmpeg", Some "mp4", {[ "codec" := VStr "libx264" ]},
               VList [VStr "-pix_fmt"; VStr "yuv420p"])]>
  (<["gif" := ("imagemagick", Some "gif", {[ "fps" := VInt 10 ]}, VList [])]>
  (<["scrubber" := ("html", None, {[ "fps" := VInt 5 ]}, VNone)]> ∅))).

(** [extra_args != []] *)
Definition ne_empty_list (v : Val) : bool :=
  match v with
  | VList [] => false
  | _ => true
  end.

(** Lines 215-216. *)
Definition with_extra_args (anim_kwargs : Dict) (extra_args : Val) : Dict :=
  if ne_empty_list extra_args
  then py_dict anim_kwargs {[ "extra_args" := extra_args ]}
  else anim_kwargs.

(** Line 218. *)
Definition with_dpi (self : MPLRenderer) (anim_kwargs : Dict) : Dict :=
  py_dict anim_kwargs (dpi_if_not_None (dpi self)).

(** Line 219. *)
Definition with_fps (self : MPLRenderer) (fmt : option string)
    (anim_kwargs : Dict) : Dict :=
  py_dict (if bool_decide (fmt = Some "gif")
           then {[ "fps" := VInt (fps self) ]} else ∅)
          anim_kwargs.

(** Lines 215-219: the keyword arguments after the three merges. *)
Definition anim_options (self : MPLRenderer) (fmt : option string)
    (anim_kwargs : Dict) (extra_args : Val) : Dict :=
  with_fps self fmt (with_dpi self (with_extra_args anim_kwargs extra_args)).

(** Line 223: what [anim.save] finally receives. *)
Definition save_options (self : MPLRenderer) (fmt : option string)
    (anim_kwargs : Dict) (extra_args : Val) : Dict :=
  py_dict (anim_options self fmt anim_kwargs extra_args)
          (dpi_if_truthy (dpi self)).

Definition _anim_data (self : MPLRenderer) (anim : Animation)
    (fmt : option string) (w : World) : Result (list Byte.byte) * World :=
  match fmt ≫= (ANIMATION_OPTS !!.) with
  | None => (Raise (KeyError (fmt_str fmt)), w)
  | Some (writer, _, anim_kwargs, extra_args) =>
      if negb (has_encoded_video anim) then
        let suffix := "." ++ fmt_str fmt in
        let opts := save_options self fmt anim_kwargs extra_args in
        let w1 := emit (EvAnimSave (anim_id anim) suffix writer opts) w in
        match anim_save anim writer opts with
        | Raise e => (Raise e, w1)
        | Ok video => (Ok video, w1)
        end
      else (Raise (UnboundLocalError "video"), w)
  end.

(** ** [__call__] *)

(** [mpl.__version__[:-2]] *)
Definition drop_last_two (s : string) : string :=
  String.substring 0 (String.length s - 2)%nat s.

(** Line 92: the interpreter and matplotlib pair whose animation
    support is broken. *)
Definition animation_broken : bool :=
  bool_decide (py_major env = 3) &&
  bool_decide (drop_last_two (mpl_version env) ∈ ["1.2"; "1.3"]).

Definition broken_message : string :=
  "<b>Python 3 matplotlib animation support broken &lt;= 1.3</b>".

Definition static_formats : list (option string) :=
  [Some "png"; Some "svg"; Some "pdf"; Some "html"; Some "json"].

(** The metadata of a rendering: [file-ext] and [mime_type]. *)
Definition Rendered : Type := Payload * (option string * string).

Definition mime_info (fmt : option string) (data : Payload)
  : Result (option Rendered) :=
  match fmt ≫= (MIME_TYPES env !!.) with
  | None => Raise (KeyError (fmt_str fmt))
  | Some mime => Ok (Some (data, (fmt, mime)))
  end.

Definition __call__ (self : MPLRenderer) (obj : HvObj)
    (fmt : option string) (w : World) : Result (option Rendered) * World :=
  match _validate env obj fmt with
  | Raise e => (Raise e, w)
  | Ok (None, _) => (Ok None, w)
  | Ok (Some plot, fmt) =>
      if bool_decide (fmt ∈ static_formats) then
        match _figure_data self plot fmt (VStr "tight")
                (dpi_if_truthy (dpi self)) w with
        | (Raise e, w1) => (Raise e, w1)
        | (Ok data, w1) => (mime_info fmt data, w1)
        end
      else if animation_broken then
        (Raise (Exception broken_message), w)
      else
        let w1 := emit (EvAnim (plot_id plot) (fps self)) w in
        match anim plot (fps self) with
        | Raise e => (Raise e, w1)
        | Ok a =>
            match _anim_data self a fmt w1 with
            | (Raise e, w2) => (Raise e, w2)
            | (Ok video, w2) => (mime_info fmt (PBytes video), w2)
            end
        end
  end.

(** ** [plot_options] *)

(** [v * factor] for a float [factor]. *)
Definition py_mul (v : Val) (factor : Num) : Result Val :=
  match v with
  | VInt n => Ok (VNum (num_mul (num_of_Z n) factor))
  | VNum x => Ok (VNum (num_mul x factor))
  | _ => Raise (TypeError "unsupported operand type(s) for *")
  end.

(** [(fig_inches[0] * factor, fig_inches[1] * factor)], evaluated left
    to right. *)
Definition scale_pair (xs : list Val) (factor : Num) : Result Val :=
  match xs with
  | [] => Raise IndexError
  | a :: rest =>
      match py_mul a factor with
      | Raise e => Raise e
      | Ok a' =>
          match rest with
          | [] => Raise IndexError
          | b :: _ =>
              match py_mul b factor with
              | Raise e => Raise e
              | Ok b' => Ok (VTuple [a'; b'])
              end
          end
      end
  end.

(** Lines 119-124. *)
Definition scaled_fig_inches (options : Dict) (factor : Num) : Result Val :=
  match default (MPLPlot_fig_inches env) (options !! "fig_inches") with
  | VTuple xs | VList xs => scale_pair xs factor
  | _ => py_mul (MPLPlot_fig_inches env) factor
  end.

Definition plot_options (obj : HvObj) (percent_size : Num) (w : World)
  : Result Dict * World :=
  let factor := num_div percent_size (num_of_Z 100) in
  let obj := match obj with HvHoloMap _ last => last | _ => obj end in
  match lookup_options env obj with
  | Raise e => (Raise e, w)
  | Ok options =>
      match scaled_fig_inches options factor with
      | Raise e => (Raise e, w)
      | Ok fig_inches =>
          (Ok (py_dict {[ "fig_inches" := fig_inches ]} options), w)
      end
  end.

(** ** [save] *)

Definition no_metadata_message : string :=
  "MPLRenderer does not support saving metadata to file.".

Definition set_file (name : string) (data : list Byte.byte) (w : World)
  : World :=
  {| drawn := drawn w; counter := counter w;
     files := <[name := data]> (files w); trace := trace w |}.

(** [open(name, 'wb')]: the file exists and is empty. *)
Definition open_wb (name : string) (w : World) : World :=
  emit (EvFileOpen name) (set_file name [] w).

(** [f.write(data)] *)
Definition write_file (name : string) (data : list Byte.byte) (w : World)
  : World :=
  emit (EvFileWrite name data) (set_file name data w).

(** [save(self_or_cls, obj, basename, fmt, key, info)].  The context
    manager [StoreOptions.options] around the rendering only changes
    what the Store answers meanwhile and is not modelled. *)
Definition save (self : MPLRenderer) (obj : HvObj) (basename : string)
    (fmt : option string) (key info : Dict) (w : World)
  : Result unit * World :=
  if bool_decide (info ≠ ∅) || bool_decide (key ≠ ∅) then
    (Raise (Exception no_metadata_message), w)
  else
    match __call__ self obj fmt w with
    | (Raise e, w1) => (Raise e, w1)
    | (Ok None, w1) => (Ok tt, w1)
    | (Ok (Some (data, (ext, mime))), w1) =>
        let filename := basename ++ "." ++ fmt_str ext in
        let w2 := open_wb filename w1 in
        match encode env data ext mime with
        | Raise e => (Raise e, w2)
        | Ok bytes => (Ok tt, write_file filename bytes w2)
        end
    end.

(** ** Notions used to state the claims *)

Definition is_draw (e : Event) : bool :=
  match e with EvDraw _ => true | _ => false end.

(** How many canvas draws the world has seen. *)
Definition draw_count (w : World) : nat :=
  length (List.filter is_draw (trace w)).

(** The entry's extra arguments are a list with at least one element. *)
Definition has_extra_args (extra_args : Val) : bool :=
  match extra_args with
  | VList (_ :: _) => true
  | _ => false
  end.

(** [percent_size / 100.0] *)
Definition size_factor (percent_size : Num) : Num :=
  num_div percent_size (num_of_Z 100).

(** The class default [MPLPlot.fig_inches] scaled by [factor], each
    component when it is a pair. *)
Definition scaled_default (factor : Num) : Result Val :=
  match MPLPlot_fig_inches env with
  | VTuple xs | VList xs => scale_pair xs factor
  | v => py_mul v factor
  end.

(** The object whose options are looked up: [obj.last] for a HoloMap. *)
Definition options_target (obj : HvObj) : HvObj :=
  match obj with HvHoloMap _ last => last | _ => obj end.

(** What the calls made on one artist answered, when none raised. *)
Record Measured := {
  m_extent : Bbox;                 (* get_window_extent *)
  m_clip_on : bool;                (* get_clip_on *)
  m_clip_box : option Bbox;        (* get_clip_box *)
  m_clip_path : option Bbox;       (* the extents of get_clip_path, if any *)
}.

(** The artist [a] answers every call made on it, as recorded in [m]. *)
Definition measured (a : Artist) (m : Measured) : Prop :=
  get_window_extent a = Ok (m_extent m) ∧
  get_clip_on a = Ok (m_clip_on m) ∧
  get_clip_box a = Ok (m_clip_box m) ∧
  match m_clip_path m with
  | Some extents =>
      ∃ path, get_clip_path a = Ok (Some path) ∧ get_extents path = Ok extents
  | None => get_clip_path a = Ok None
  end.

(** Clip a box, if one is left, to a bound, if there is one. *)
Definition clip_to (bound : option Bbox) (bbox : option Bbox) : option Bbox :=
  match bound, bbox with
  | Some c, Some b => Bbox_intersection b c
  | _, _ => bbox
  end.

(** The clipped extent of an extra artist as the description of the
    cache words it: its window extent, clipped to its own clip box and
    clip path when clipping is on. *)
Definition described_clipped_extent (m : Measured) : option Bbox :=
  if m_clip_on m
  then clip_to (m_clip_path m) (clip_to (m_clip_box m) (Some (m_extent m)))
  else Some (m_extent m).

(** A box that is more than a point. *)
Definition nondegenerate (b : Bbox) : bool :=
  negb (num_is_zero (Bbox_width b) && num_is_zero (Bbox_height b)).

(** The extents of the extra artists that count. *)
Definition described_extents (ms : list Measured) : list Bbox :=
  List.filter nondegenerate (omap described_clipped_extent ms).

(** The tight bounding box as the description of the cache words it:
    the union of the figure extent with the clipped extents of the
    extra artists, these brought to inches at [n] dots per inch, padded
    by [pad]. *)
Definition described_tight_bbox (pad : Num) (n : Z) (figure_extent : Bbox)
    (ms : list Measured) : Bbox :=
  Bbox_padded
    (match described_extents ms with
     | [] => figure_extent
     | extents =>
         Bbox_union
           [figure_extent;
            TransformedBbox_scale (Bbox_union extents)
              (num_div (num_of_Z 1) (num_of_Z n))]
     end)
    pad.

(** The figure size as the description of [plot_options] words it: the
    object's [fig_inches] option, or the class default when there is
    none, scaled by [factor], each component when it is a pair. *)
Definition described_fig_inches (options : Dict) (factor : Num) : Result Val :=
  match default (MPLPlot_fig_inches env) (options !! "fig_inches") with
  | VTuple xs | VList xs => scale_pair xs factor
  | v => py_mul v factor
  end.

End Renderer.

Arguments ClipPath : clear implicits.
Arguments Measured : clear implicits.
Arguments Artist : clear implicits.
Arguments Figure : clear implicits.
Arguments MPLRenderer : clear implicits.
Arguments Event : clear implicits.
Arguments World : clear implicits.
Arguments Payload : clear implicits.
Arguments Animation : clear implicits.
Arguments Plot : clear implicits.
Arguments Env : clear implicits.

(** ** The link registry and the link resolver *)

Module Links.

Inductive LinkKind := RangeLink | DataLink | CustomLink.
Inductive Axis := AxisX | AxisY.
Inductive LinkError :=
  | ConfigurationError
  | LinkResolutionError
  | MergeError.

Inductive Outcome (A : Type) :=
  | Done (a : A)
  | Fail (e : LinkError).
Arguments Done {A} a.
Arguments Fail {A} e.

#[global] Instance LinkKind_eq_dec : EqDecision LinkKind.
Proof. solve_decision. Defined.
#[global] Instance Axis_eq_dec : EqDecision Axis.
Proof. solve_decision. Defined.

(** Modelled from the spec: the link declaration of section 3; the
    module [holoviews/plotting/links.py] that defines it is missing.
    Elements are referred to by identity. *)
Record Link := {
  source : Z;
  target : option Z;
  kind : LinkKind;
  axes : list Axis;
  transient : bool;
}.

(** Modelled from the spec: a rendered sub-plot of section 3, the plot
    classes being missing: its key in the composite, the identity of
    the element it is bound to, and its named handles, each a backend
    object known by identity. *)
Record SubPlot := {
  key : string;
  element : Z;
  handles : gmap string Z;
}.

Definition set_handles (h : gmap string Z) (sp : SubPlot) : SubPlot :=
  {| key := key sp; element := element sp; handles := h |}.

Section Registry.
(** Which kinds need a target, which axes a kind accepts and which
    data sources can be merged are not fixed by the spec. *)
Variable requires_target : LinkKind → bool.
Variable valid_axes : LinkKind → list Axis → bool.
Variable mergeable : SubPlot → SubPlot → bool.

(** Modelled from the spec: the (source, target, kind) triple that
    identifies a link in the invariant of section 3; the comparison of
    [links.py] is missing. *)
Definition same_link (a b : Link) : bool :=
  bool_decide (source a = source b) &&
  bool_decide (target a = target b) &&
  bool_decide (kind a = kind b).

(** Modelled from the spec: [lookup(element)] of section 4.1, all
    links whose source is the element, in declaration order; the
    registry of [links.py] is missing. *)
Definition lookup (reg : gmap Z (list Link)) (e : Z) : list Link :=
  default [] (reg !! e).

(** Modelled from the spec: [declare(source, target, kind, axes,
    transient)] of section 4.1; the constructor of [links.py] is
    missing. *)
Definition declare (reg : gmap Z (list Link)) (l : Link)
  : Outcome (gmap Z (list Link)) :=
  if requires_target (kind l) && bool_decide (target l = None) then
    Fail ConfigurationError
  else if negb (valid_axes (kind l) (axes l)) then
    Fail ConfigurationError
  else if existsb (same_link l) (lookup reg (source l)) then
    Done reg
  else
    Done (<[source l := (lookup reg (source l) ++ [l])%list]> reg).

(** How many entries of a sequence carry the triple of [l]. *)
Definition count_link (l : Link) (ls : list Link) : nat :=
  length (filter (λ l', same_link l l' = true) ls).

Definition axis_handle (a : Axis) : string :=
  match a with AxisX => "x_range" | AxisY => "y_range" end.

(** Modelled from the spec: the axes of a range-link, {x} when none
    were declared; the parameter defaults of [links.py] are missing. *)
Definition link_axes (l : Link) : list Axis :=
  match axes l with [] => [AxisX] | _ => axes l end.

Definition find_plot (e : Z) (tree : list SubPlot) : option (nat * SubPlot) :=
  list_find (λ sp, element sp = e) tree.

(** Modelled from the spec: object sharing of section 4.1, the link
    callbacks being missing: the target's handle [name] becomes the
    very object the source holds under [name]. *)
Definition share_handle (name : string) (src tgt : SubPlot) : SubPlot :=
  set_handles (partial_alter (λ _, handles src !! name) name (handles tgt)) tgt.

Definition share_axes (axs : list Axis) (src tgt : SubPlot) : SubPlot :=
  foldl (λ t a, share_handle (axis_handle a) src t) tgt axs.

(** Modelled from the spec: what [resolve] of section 4.1 does for
    one link; the link callbacks of the plotting backend are
    missing. *)
Definition apply_link (l : Link) (tree : list SubPlot)
  : Outcome (list SubPlot) :=
  match find_plot (source l) tree with
  | None => Fail LinkResolutionError
  | Some (_, src) =>
      match target l with
      | None => Done tree
      | Some t =>
          match find_plot t tree with
          | None => Fail LinkResolutionError
          | Some (j, tgt) =>
              match kind l with
              | RangeLink =>
                  Done (<[j := share_axes (link_axes l) src tgt]> tree)
              | DataLink =>
                  if mergeable src tgt
                  then Done (<[j := share_handle "source" src tgt]> tree)
                  else Fail MergeError
              | CustomLink => Done tree
              end
          end
      end
  end.

Fixpoint apply_links (ls : list Link) (tree : list SubPlot)
  : Outcome (list SubPlot) :=
  match ls with
  | [] => Done tree
  | l :: rest =>
      match apply_link l tree with
      | Fail e => Fail e
      | Done tree' => apply_links rest tree'
      end
  end.

(** Modelled from the spec: the links [resolve] walks, the traversal
    of the plot classes being missing: for every element in the
    composite, every link where it is the source. *)
Definition links_of (reg : gmap Z (list Link)) (tree : list SubPlot)
  : list Link :=
  tree ≫= (λ sp, lookup reg (element sp)).

(** Modelled from the spec: [resolve(plot_tree)] of section 4.1;
    the plot construction that runs it is missing. *)
Definition resolve (reg : gmap Z (list Link)) (tree : list SubPlot)
  : Outcome (list SubPlot) :=
  apply_links (links_of reg tree) tree.

(** Modelled from the spec: the registry invariant of section 3, the
    registry of [links.py] being missing: entries are filed under their
    source, at most one per (source, target, kind). *)
Definition registry_wf (reg : gmap Z (list Link)) : Prop :=
  ∀ e ls, reg !! e = Some ls →
    Forall (λ l, source l = e) ls ∧
    ∀ l, l ∈ ls → count_link l ls = 1%nat.
End Registry.

End Links.

(** ** An exact-arithmetic instance of the matplotlib interface

    Rational coordinates, used to run the model on concrete figures. *)

Module QBox.

Record box := { x0 : Q; y0 : Q; x1 : Q; y1 : Q }.

Definition qmin (a b : Q) : Q := if Qle_bool a b then a else b.
Definition qmax (a b : Q) : Q := if Qle_bool a b then b else a.

Definition width (b : box) : Q := Qminus (x1 b) (x0 b).
Definition height (b : box) : Q := Qminus (y1 b) (y0 b).

Definition intersection (a b : box) : option box :=
  let c := {| x0 := qmax (x0 a) (x0 b); y0 := qmax (y0 a) (y0 b);
              x1 := qmin (x1 a) (x1 b); y1 := qmin (y1 a) (y1 b) |} in
  if Qle_bool (x0 c) (x1 c) && Qle_bool (y0 c) (y1 c) then Some c else None.

Definition join (a b : box) : box :=
  {| x0 := qmin (x0 a) (x0 b); y0 := qmin (y0 a) (y0 b);
     x1 := qmax (x1 a) (x1 b); y1 := qmax (y1 a) (y1 b) |}.

Definition union (bs : list box) : box :=
  match bs with
  | [] => {| x0 := 0; y0 := 0; x1 := 0; y1 := 0 |}
  | b :: rest => foldl join b rest
  end.

Definition padded (b : box) (p : Q) : box :=
  {| x0 := Qminus (x0 b) p; y0 := Qminus (y0 b) p;
     x1 := Qplus (x1 b) p; y1 := Qplus (y1 b) p |}.

Definition scale (b : box) (s : Q) : box :=
  {| x0 := Qmult (x0 b) s; y0 := Qmult (y0 b) s;
     x1 := Qmult (x1 b) s; y1 := Qmult (y1 b) s |}.

#[global] Instance float_ops : FloatOps Q := {|
  num_of_Z := inject_Z;
  num_mul := Qmult;
  num_div := Qdiv;
  num_is_zero := λ q, Qeq_bool q 0;
|}.

#[global] Instance bbox_ops : BboxOps Q box := {|
  Bbox_width := width;
  Bbox_height := height;
  Bbox_intersection := intersection;
  Bbox_union := union;
  Bbox_padded := padded;
  TransformedBbox_scale := scale;
|}.

End QBox.

(** ** Concrete figures, renderers and surroundings *)

Module Examples.
Import QBox.

Definition axes_box : box := {| x0 := 0; y0 := 0; x1 := 4; y1 := 3 |}.
Definition legend_box : box := {| x0 := 288; y0 := 72; x1 := 360; y1 := 144 |}.

Definition legend : Artist box := {|
  get_window_extent := Ok legend_box;
  get_clip_on := Ok false;
  get_clip_box := Ok None;
  get_clip_path := Ok None;
|}.

Definition png_bytes : list Byte.byte := [Byte.x89; Byte.x50; Byte.x4e; Byte.x47].

Definition fig1 : Figure Q box := {|
  fig_id := 1001;
  get_facecolor := VStr "w";
  get_edgecolor := VStr "w";
  draw_pass := Drawn;
  _cachedRenderer := Some 7;
  get_tightbbox := Ok axes_box;
  get_default_bbox_extra_artists := [legend];
  print_figure := λ _, Ok png_bytes;
  axes3d := [];
  mpld3_fig_to_dict := VNone;
  mpld3_fig_to_html := "<div/>";
|}.

(** A figure that was never drawn by a canvas keeping its renderer. *)
Definition fig_no_renderer : Figure Q box := {|
  fig_id := 1002;
  get_facecolor := VStr "w";
  get_edgecolor := VStr "w";
  draw_pass := Drawn;
  _cachedRenderer := None;
  get_tightbbox := Ok axes_box;
  get_default_bbox_extra_artists := [];
  print_figure := λ _, Ok png_bytes;
  axes3d := [];
  mpld3_fig_to_dict := VNone;
  mpld3_fig_to_html := "<div/>";
|}.

Definition renderer72 : MPLRenderer Q := {|
  dpi := Some 72;
  fps := 20;
  mode := ModeDefault;
  savefig_pad_inches := 1 # 10;
|}.

Definition world0 : World Q box := {|
  drawn := ∅; counter := 0; files := ∅; trace := [];
|}.

Definition png_kw : gmap string (PyVal Q box) :=
  figure_kw renderer72 fig1 (Some "png") (VStr "tight") ∅.

Definition svg_kw : gmap string (PyVal Q box) :=
  figure_kw renderer72 fig1 (Some "svg") (VStr "tight") ∅.

Definition movie : Animation Q box := {|
  anim_id := 2001;
  has_encoded_video := false;
  anim_save := λ _ _, Ok png_bytes;
|}.

Definition encoded_movie : Animation Q box := {|
  anim_id := 2002;
  has_encoded_video := true;
  anim_save := λ _ _, Ok png_bytes;
|}.

Definition plot1 : Plot Q box := {|
  plot_id := 3001;
  state := fig1;
  anim := λ _, Ok movie;
  new_figure_manager := λ n, Some n;
|}.

Definition plot_no_renderer : Plot Q box := {|
  plot_id := 3002;
  state := fig_no_renderer;
  anim := λ _, Ok movie;
  new_figure_manager := λ n, Some n;
|}.

(** Python 3 with matplotlib 1.3.1; the object resolves to [plot1],
    an explicit format is kept and ['auto'] becomes gif. *)
Definition env_py3_mpl13 (options : gmap string (PyVal Q box)) : Env Q box := {|
  py_major := 3;
  mpl_version := "1.3.1";
  _validate := λ obj fmt,
    match obj with
    | HvNone => Ok (None, fmt)
    | _ => Ok (Some plot1, if bool_decide (fmt = Some "auto")
                           then Some "gif" else fmt)
    end;
  MIME_TYPES := {[ "png" := "image/png"; "gif" := "image/gif" ]};
  encode := λ data _ _,
    match data with PBytes bs => Ok bs | _ => Ok [] end;
  decode_utf8 := λ _, Ok "<svg/>";
  lookup_options := λ _, Ok options;
  MPLPlot_fig_inches := VInt 4;
|}.

(** The scenario of [test_range_tool_link_callback_single_axis]: a
    curve linked to a scatter, laid out as [target + src]. *)
Definition needs_target (k : Links.LinkKind) : bool :=
  match k with Links.CustomLink => false | _ => true end.

Definition axes_ok (k : Links.LinkKind) (axs : list Links.Axis) : bool :=
  match k with Links.RangeLink => true | _ => bool_decide (axs = []) end.

Definition curve : Z := 1.
Definition scatter : Z := 2.

Definition range_link : Links.Link := {|
  Links.source := curve;
  Links.target := Some scatter;
  Links.kind := Links.RangeLink;
  Links.axes := [];
  Links.transient := false;
|}.

Definition scatter_plot : Links.SubPlot := {|
  Links.key := "(0, 0)/main";
  Links.element := scatter;
  Links.handles := {[ "x_range" := 10; "y_range" := 11 ]};
|}.

Definition curve_plot : Links.SubPlot := {|
  Links.key := "(0, 1)/main";
  Links.element := curve;
  Links.handles := {[ "x_range" := 20; "y_range" := 21 ]};
|}.

Definition layout : list Links.SubPlot := [scatter_plot; curve_plot].

(** The two tables of [test_data_link_idempotent]. *)
Definition table1 : Z := 3.
Definition table2 : Z := 4.

Definition data_link : Links.Link := {|
  Links.source := table1;
  Links.target := Some table2;
  Links.kind := Links.DataLink;
  Links.axes := [];
  Links.transient := false;
|}.

(** [Link.registry] after the two declarations of the test. *)
Definition declared_twice : Links.Outcome (gmap Z (list Links.Link)) :=
  match Links.declare needs_target axes_ok ∅ data_link with
  | Links.Done reg => Links.declare needs_target axes_ok reg data_link
  | Links.Fail e => Links.Fail e
  end.

Definition registry1 : gmap Z (list Links.Link) := {[ curve := [range_link] ]}.

(** The padded tight box of [fig1] at 72 dpi. *)
Definition fig1_bbox : box :=
  {| x0 := -1 # 10; y0 := -1 # 10; x1 := 3672 # 720; y1 := 31 # 10 |}.

Definition square_options : gmap string (PyVal Q box) :=
  {[ "fig_inches" := VTuple [VInt 4; VInt 4] ]}.

Definition frame_key : gmap string (PyVal Q box) := {[ "frame" := VInt 0 ]}.

(** The keyword arguments and extra arguments of the mp4 entry. *)
Definition mp4_kwargs : gmap string (PyVal Q box) :=
  {[ "codec" := VStr "libx264" ]}.
Definition mp4_extra : PyVal Q box := VList [VStr "-pix_fmt"; VStr "yuv420p"].

End Examples.

(** ** The format tables and ways to compare worlds *)

Inductive FormatKind := KindFig | KindHolomap.

(** [mode_formats]: the formats accepted for figures and for holomaps,
    per mode. *)
Definition mode_formats (kind : FormatKind) (m : Mode) : list (option string) :=
  match kind with
  | KindFig =>
      match m with
      | ModeDefault => [Some "png"; Some "svg"; Some "pdf"; None; Some "auto"]
      | ModeD3 => [Some "html"; Some "json"; None; Some "auto"]
      | ModeNbagg => [Some "html"; None; Some "auto"]
      end
  | KindHolomap =>
      [Some "webm"; Some "mp4"; Some "gif"; None; Some "auto"; Some "html"]
  end.

Section Surroundings.
Context {Num Bbox : Type}.

(** Every entry of the cache of [w] is still in [w'], unchanged. *)
Definition cache_kept (w w' : World Num Bbox) : Prop :=
  ∀ k b, drawn w !! k = Some b → drawn w' !! k = Some b.

(** [w'] is [w] after some more events: no cache entry lost or
    changed, no file touched, the counter not decreased. *)
Definition world_extends (w w' : World Num Bbox) : Prop :=
  cache_kept w w' ∧ files w' = files w ∧
  (counter w ≤ counter w')%Z ∧ trace w `prefix_of` trace w'.

(** The same surroundings under another interpreter and matplotlib. *)
Definition with_versions (env : Env Num Bbox) (major : Z) (version : string)
  : Env Num Bbox :=
  {| py_major := major;
     mpl_version := version;
     _validate := _validate env;
     MIME_TYPES := MIME_TYPES env;
     encode := encode env;
     decode_utf8 := decode_utf8 env;
     lookup_options := lookup_options env;
     MPLPlot_fig_inches := MPLPlot_fig_inches env |}.

End Surroundings.

(** ** More concrete figures *)

Module MoreExamples.
Import QBox Examples.

(** A legend whose extent is a single point: filtered out. *)
Definition dot : Artist box := {|
  get_window_extent := Ok {| x0 := 5; y0 := 5; x1 := 5; y1 := 5 |};
  get_clip_on := Ok false;
  get_clip_box := Ok None;
  get_clip_path := Ok None;
|}.

(** A title that sticks out of its clip box and is cut by it. *)
Definition title_box : box := {| x0 := 72; y0 := 216; x1 := 432; y1 := 288 |}.
Definition title_clip : box := {| x0 := 0; y0 := 0; x1 := 360; y1 := 252 |}.

Definition title : Artist box := {|
  get_window_extent := Ok title_box;
  get_clip_on := Ok true;
  get_clip_box := Ok (Some title_clip);
  get_clip_path := Ok None;
|}.

Definition title_measured : Measured box := {|
  m_extent := title_box;
  m_clip_on := true;
  m_clip_box := Some title_clip;
  m_clip_path := None;
|}.

Definition dot_measured : Measured box := {|
  m_extent := {| x0 := 5; y0 := 5; x1 := 5; y1 := 5 |};
  m_clip_on := false;
  m_clip_box := None;
  m_clip_path := None;
|}.

(** A figure with a clipped title and a degenerate artist. *)
Definition fig2 : Figure Q box := {|
  fig_id := 1003;
  get_facecolor := VStr "w";
  get_edgecolor := VStr "w";
  draw_pass := Drawn;
  _cachedRenderer := Some 7;
  get_tightbbox := Ok axes_box;
  get_default_bbox_extra_artists := [title; dot];
  print_figure := λ _, Ok png_bytes;
  axes3d := [];
  mpld3_fig_to_dict := VNone;
  mpld3_fig_to_html := "<div/>";
|}.

(** The padded tight box of [fig2] at 72 dpi: the title cut at its clip
    box, the degenerate artist left out. *)
Definition fig2_bbox : box :=
  {| x0 := -1 # 10; y0 := -1 # 10; x1 := 3672 # 720; y1 := 2592 # 720 |}.

(** [fig1] as a real figure answers a renderer without dpi:
    [set_dpi(None)] raises. *)
Definition fig1_no_dpi : Figure Q box := {|
  fig_id := 1001;
  get_facecolor := VStr "w";
  get_edgecolor := VStr "w";
  draw_pass := SetDpiRaises (TypeError "unsupported operand type(s)");
  _cachedRenderer := Some 7;
  get_tightbbox := Ok axes_box;
  get_default_bbox_extra_artists := [legend];
  print_figure := λ _, Ok png_bytes;
  axes3d := [];
  mpld3_fig_to_dict := VNone;
  mpld3_fig_to_html := "<div/>";
|}.

(** The renderer as configured by default: no dpi. *)
Definition renderer_no_dpi : MPLRenderer Q := {|
  dpi := None;
  fps := 20;
  mode := ModeDefault;
  savefig_pad_inches := 1 # 10;
|}.

Definition renderer_nbagg : MPLRenderer Q := {|
  dpi := Some 72;
  fps := 20;
  mode := ModeNbagg;
  savefig_pad_inches := 1 # 10;
|}.

Definition renderer_fps5 : MPLRenderer Q := {|
  dpi := Some 72;
  fps := 5;
  mode := ModeDefault;
  savefig_pad_inches := 1 # 10;
|}.

Definition png_kw_no_dpi : gmap string (PyVal Q box) :=
  figure_kw renderer_no_dpi fig1 (Some "png") (VStr "tight") ∅.

(** The world after [fig1] was rendered once by [renderer72]. *)
Definition world1 : World Q box :=
  set_drawn 1001 fig1_bbox
    (emit (EvDraw 1001) (emit (EvSetDpi 1001 (Some 72)) world0)).

Definition png_kw_cached : gmap string (PyVal Q box) :=
  <["bbox_inches" := VBbox fig1_bbox]> png_kw.

(** Python 2: the animation support is not broken. *)
Definition env_py2 : Env Q box := with_versions (env_py3_mpl13 ∅) 2 "1.3.1".

(** Surroundings whose [encode] fails. *)
Definition env_failing_encode : Env Q box := {|
  py_major := 2;
  mpl_version := "1.3.1";
  _validate := _validate (env_py3_mpl13 ∅);
  MIME_TYPES := MIME_TYPES (env_py3_mpl13 ∅);
  encode := λ _ _ _, Raise (ExternalError "encode");
  decode_utf8 := decode_utf8 (env_py3_mpl13 ∅);
  lookup_options := lookup_options (env_py3_mpl13 ∅);
  MPLPlot_fig_inches := VInt 4;
|}.

(** The keyword arguments and extra arguments of the gif entry. *)
Definition gif_kwargs : gmap string (PyVal Q box) := {[ "fps" := VInt 10 ]}.
Definition gif_extra : PyVal Q box := VList [].

Definition one_inch_options : gmap string (PyVal Q box) :=
  {[ "fig_inches" := VTuple [VInt 4] ]}.

(** A third plot, range-linked to the scatter as the curve is. *)
Definition third : Z := 5.

Definition third_plot : Links.SubPlot := {|
  Links.key := "(0, 2)/main";
  Links.element := third;
  Links.handles := {[ "x_range" := 30; "y_range" := 31 ]};
|}.

Definition layout3 : list Links.SubPlot :=
  [scatter_plot; curve_plot; third_plot].

Definition third_to_scatter : Links.Link := {|
  Links.source := third;
  Links.target := Some scatter;
  Links.kind := Links.RangeLink;
  Links.axes := [Links.AxisX];
  Links.transient := false;
|}.

Definition registry3 : gmap Z (list Links.Link) :=
  {[ curve := [range_link]; third := [third_to_scatter] ]}.

(** The curve range-linked to the scatter and, besides, to the third
    plot. *)
Definition curve_to_third : Links.Link := {|
  Links.source := curve;
  Links.target := Some third;
  Links.kind := Links.RangeLink;
  Links.axes := [Links.AxisX];
  Links.transient := false;
|}.

Definition registry4 : gmap Z (list Links.Link) :=
  {[ curve := [range_link; curve_to_third] ]}.

End MoreExamples.

(** * Properties of the renderer *)

Section RendererFacts.
Context {Num Bbox : Type} `{!FloatOps Num} `{!BboxOps Num Bbox}.
Implicit Types (self : MPLRenderer Num) (fig : Figure Num Bbox).
Implicit Types (kw kwargs : gmap string (PyVal Num Bbox)) (w : World Num Bbox).
Implicit Types (extra : PyVal Num Bbox).

(** The draw pass leaves the cache alone and logs a [set_dpi], followed
    by a draw unless [set_dpi] raised. *)
Lemma draw_and_measure_world self fig w :
  (draw_and_measure self fig w).2 = emit (EvSetDpi (fig_id fig) (dpi self)) w ∨
  (draw_and_measure self fig w).2 =
    emit (EvDraw (fig_id fig)) (emit (EvSetDpi (fig_id fig) (dpi self)) w).
Proof. unfold draw_and_measure. destruct (draw_pass fig); auto. Qed.

Lemma canvas_draw_Drawn fig : canvas_draw fig = Ok () → draw_pass fig = Drawn.
Proof. unfold canvas_draw. by destruct (draw_pass fig). Qed.

Lemma draw_and_measure_ok self fig w :
  canvas_draw fig = Ok () →
  draw_and_measure self fig w =
    (tight_bbox self fig,
     emit (EvDraw (fig_id fig)) (emit (EvSetDpi (fig_id fig) (dpi self)) w)).
Proof.
  intros Hd%canvas_draw_Drawn. unfold draw_and_measure. by rewrite Hd.
Qed.

(** A call that raises has not touched the dictionary or the cache. *)
Lemma _compute_bbox_raise self fig kw w e kw' w' :
  _compute_bbox self fig kw w = (Raise e, kw', w') →
  kw' = kw ∧ drawn w' = drawn w.
Proof.
  unfold _compute_bbox. intros Hc.
  destruct (kw !! "bbox_inches") as [crop|]; [|by simplify_eq].
  destruct (py_eq_str crop "tight"); [|by simplify_eq].
  destruct (kw !! "format") as [fmt|]; [|by simplify_eq].
  destruct (py_eq_str fmt "png"); [|by simplify_eq].
  destruct (drawn w !! fig_id fig); [by simplify_eq|].
  pose proof (draw_and_measure_world self fig w) as Hw.
  destruct (draw_and_measure self fig w) as [[bb|e'] w1];
    simpl in Hw; simplify_eq. by destruct Hw as [-> | ->].
Qed.

(** A miss: the box is measured after one draw, cached and written
    into the dictionary. *)
Lemma _compute_bbox_miss self fig kw w bb :
  tight_png kw →
  drawn w !! fig_id fig = None →
  canvas_draw fig = Ok () →
  tight_bbox self fig = Ok bb →
  _compute_bbox self fig kw w =
    (Ok (), <["bbox_inches" := VBbox bb]> kw,
     set_drawn (fig_id fig) bb
       (emit (EvDraw (fig_id fig)) (emit (EvSetDpi (fig_id fig) (dpi self)) w))).
Proof.
  intros [Hcrop Hfmt] Hmiss Hdraw Hbb.
  unfold _compute_bbox. rewrite Hcrop, Hfmt. simpl. rewrite Hmiss.
  by rewrite (draw_and_measure_ok self fig w Hdraw), Hbb.
Qed.

(** A hit: the cached box is written into the dictionary, nothing else
    happens. *)
Lemma _compute_bbox_hit self fig kw w bb :
  tight_png kw →
  drawn w !! fig_id fig = Some bb →
  _compute_bbox self fig kw w = (Ok (), <["bbox_inches" := VBbox bb]> kw, w).
Proof.
  intros [Hcrop Hfmt] Hhit. unfold _compute_bbox.
  rewrite Hcrop, Hfmt. simpl. by rewrite Hhit.
Qed.

Lemma keep_extent_nondegenerate (b : Bbox) :
  keep_extent (Some b) = if nondegenerate b then Some b else None.
Proof.
  unfold keep_extent, nondegenerate.
  by destruct (num_is_zero (Bbox_width b)), (num_is_zero (Bbox_height b)).
Qed.

(** The clipping of the source is the clipping of the description. *)
Lemma clipped_extent_described (a : Artist Bbox) (m : Measured Bbox) :
  measured a m → clipped_extent a = Ok (described_clipped_extent m).
Proof.
  intros (Hext & Hon & Hbox & Hpath).
  unfold clipped_extent, described_clipped_extent.
  rewrite Hext, Hon. simpl. destruct (m_clip_on m); [|done].
  rewrite Hbox. simpl.
  destruct (m_clip_path m) as [extents|].
  - destruct Hpath as (path & -> & Hex). simpl.
    destruct (m_clip_box m) as [box|]; simpl.
    + destruct (Bbox_intersection (m_extent m) box); [|done].
      by rewrite Hex.
    + by rewrite Hex.
  - rewrite Hpath. simpl. by destruct (m_clip_box m).
Qed.

(** The loop of the source collects the extents of the description. *)
Lemma bbox_filtered_described (artists : list (Artist Bbox))
    (ms : list (Measured Bbox)) :
  Forall2 measured artists ms →
  bbox_filtered artists = Ok (described_extents ms).
Proof.
  induction 1 as [|a m artists ms Ham _ IH]; [done|].
  cbn [bbox_filtered]. rewrite (clipped_extent_described a m Ham), IH.
  unfold described_extents. cbn [omap list_omap].
  destruct (described_clipped_extent m) as [b|]; [|done].
  rewrite keep_extent_nondegenerate. cbn [List.filter].
  by destruct (nondegenerate b).
Qed.

Lemma tight_bbox_described self fig r b (ms : list (Measured Bbox)) n :
  _cachedRenderer fig = Some r →
  get_tightbbox fig = Ok b →
  Forall2 measured (get_default_bbox_extra_artists fig) ms →
  described_extents ms = [] ∨ (dpi self = Some n ∧ n ≠ 0) →
  tight_bbox self fig =
    Ok (described_tight_bbox (savefig_pad_inches self) n b ms).
Proof.
  intros Hr Hb Hms Hdpi. unfold tight_bbox, described_tight_bbox.
  rewrite Hr, Hb, (bbox_filtered_described _ _ Hms).
  destruct (described_extents ms) as [|x xs]; [done|].
  destruct Hdpi as [?|[-> Hn]]; [done|].
  unfold inverse_dpi. by destruct n.
Qed.

(** C1 (amended): for a png request with tight crop that misses the
    cache, when the draw pass and every measurement succeed, and the
    dpi can be divided by when an extent of an extra artist counts, the
    first call draws the canvas once, computes the box of the
    description (figure extent united with the clipped, non-degenerate
    extents of the extra artists, padded) and stores it under the
    figure's identity; every later call for that identity returns the
    stored rectangle and leaves the world as it was.  A call that
    raises instead has changed neither the dictionary nor the cache. *)
Theorem compute_bbox_cached_once self fig kw w r b (ms : list (Measured Bbox)) n :
  tight_png kw →
  drawn w !! fig_id fig = None →
  canvas_draw fig = Ok () →
  _cachedRenderer fig = Some r →
  get_tightbbox fig = Ok b →
  Forall2 measured (get_default_bbox_extra_artists fig) ms →
  described_extents ms = [] ∨ (dpi self = Some n ∧ n ≠ 0) →
  (∃ w1,
    _compute_bbox self fig kw w =
      (Ok (),
       <["bbox_inches" :=
           VBbox (described_tight_bbox (savefig_pad_inches self) n b ms)]> kw,
       w1) ∧
    drawn w1 =
      <[fig_id fig := described_tight_bbox (savefig_pad_inches self) n b ms]>
        (drawn w) ∧
    trace w1 =
      (trace w ++ [EvSetDpi (fig_id fig) (dpi self); EvDraw (fig_id fig)])%list ∧
    ∀ self' fig' kw' w2,
      fig_id fig' = fig_id fig →
      tight_png kw' →
      drawn w2 !! fig_id fig = drawn w1 !! fig_id fig →
      _compute_bbox self' fig' kw' w2 =
        (Ok (),
         <["bbox_inches" :=
             VBbox (described_tight_bbox (savefig_pad_inches self) n b ms)]> kw',
         w2)) ∧
  (∀ self0 fig0 kw0 w0 e kw1 w1,
     _compute_bbox self0 fig0 kw0 w0 = (Raise e, kw1, w1) →
     kw1 = kw0 ∧ drawn w1 = drawn w0).
Proof.
  intros Hreq Hmiss Hdraw Hr Hb Hms Hdpi.
  pose proof (tight_bbox_described self fig r b ms n Hr Hb Hms Hdpi) as Hbb.
  split; [|intros; by eapply _compute_bbox_raise].
  eexists. split; [|split; [|split]].
  - by apply _compute_bbox_miss.
  - reflexivity.
  - simpl. by rewrite <- app_assoc.
  - intros self' fig' kw' w2 Hid Hreq' Hhit.
    simpl in Hhit. rewrite lookup_insert_eq in Hhit.
    apply _compute_bbox_hit; [done|]. by rewrite Hid.
Qed.

(** C5: when the crop is not ['tight'], or the format is not ['png'],
    [_compute_bbox] returns the dictionary as it received it and the
    world is untouched, whatever the cache holds. *)
Theorem compute_bbox_other_request self fig kw crop :
  kw !! "bbox_inches" = Some crop →
  py_eq_str crop "tight" = false ∨
    (∃ fmt, kw !! "format" = Some fmt ∧ py_eq_str fmt "png" = false) →
  ∀ w, _compute_bbox self fig kw w = (Ok (), kw, w).
Proof.
  intros Hcrop Hother w. unfold _compute_bbox. rewrite Hcrop.
  destruct (py_eq_str crop "tight") eqn:Ht; [|done].
  destruct Hother as [?|(fmt & Hfmt & Hpng)]; [done|].
  by rewrite Hfmt, Hpng.
Qed.

Section WithEnv.
Context (env : Env Num Bbox).

(** C4: in the static (default) mode, when the bounding-box computation
    raises, the exception is dropped: the request dictionary built from
    the caller's arguments is unchanged, nothing was cached, and
    [_figure_data] is exactly the print of the figure with that
    dictionary. *)
Theorem figure_data_survives_bbox_failure self (plot : Plot Num Bbox)
    fmt crop kwargs w e kw' w1 :
  mode self = ModeDefault →
  _compute_bbox self (state plot) (figure_kw self (state plot) fmt crop kwargs) w
    = (Raise e, kw', w1) →
  kw' = figure_kw self (state plot) fmt crop kwargs ∧
  drawn w1 = drawn w ∧
  _figure_data env self plot fmt crop kwargs w =
    print_and_decode env (state plot) fmt
      (figure_kw self (state plot) fmt crop kwargs) w1.
Proof.
  intros Hmode Hraise.
  destruct (_compute_bbox_raise _ _ _ _ _ _ _ Hraise) as [-> Hd].
  split; [done|]. split; [done|].
  unfold _figure_data. by rewrite Hmode, Hraise.
Qed.

Lemma print_and_decode_world (fig : Figure Num Bbox) fmt kw w :
  (print_and_decode env fig fmt kw w).2 = emit (EvPrintFigure (fig_id fig) kw) w.
Proof.
  unfold print_and_decode. destruct (print_figure fig kw); [|done].
  case_bool_decide; [|done]. by destruct (decode_utf8 env _).
Qed.

(** Rendering one figure twice as a tightly cropped png draws the
    canvas once: the second rendering prints with the cached box. *)
Lemma figure_data_twice_draws_once self (plot : Plot Num Bbox)
    kwargs1 kwargs2 w bb :
  let fig := state plot in
  let kw1 := figure_kw self fig (Some "png") (VStr "tight") kwargs1 in
  let kw2 := figure_kw self fig (Some "png") (VStr "tight") kwargs2 in
  mode self = ModeDefault →
  tight_png kw1 → tight_png kw2 →
  drawn w !! fig_id fig = None →
  canvas_draw fig = Ok () →
  tight_bbox self fig = Ok bb →
  ∃ r1 w1 r2 w2,
    _figure_data env self plot (Some "png") (VStr "tight") kwargs1 w = (r1, w1) ∧
    _figure_data env self plot (Some "png") (VStr "tight") kwargs2 w1 = (r2, w2) ∧
    trace w2 =
      (trace w ++
       [EvSetDpi (fig_id fig) (dpi self); EvDraw (fig_id fig);
        EvPrintFigure (fig_id fig) (<["bbox_inches" := VBbox bb]> kw1);
        EvPrintFigure (fig_id fig) (<["bbox_inches" := VBbox bb]> kw2)])%list ∧
    draw_count w2 = S (draw_count w).
Proof.
  intros fig kw1 kw2 Hmode Hk1 Hk2 Hmiss Hdraw Hbb.
  pose proof (_compute_bbox_miss self fig kw1 w bb Hk1 Hmiss Hdraw Hbb) as H1.
  set (wa := set_drawn (fig_id fig) bb
               (emit (EvDraw (fig_id fig))
                  (emit (EvSetDpi (fig_id fig) (dpi self)) w))) in *.
  pose proof (print_and_decode_world fig (Some "png")
                (<["bbox_inches" := VBbox bb]> kw1) wa) as Hp1.
  destruct (print_and_decode env fig (Some "png")
              (<["bbox_inches" := VBbox bb]> kw1) wa) as [r1 w1] eqn:E1.
  simpl in Hp1. subst w1.
  set (wb := emit (EvPrintFigure (fig_id fig) (<["bbox_inches" := VBbox bb]> kw1)) wa)
    in *.
  assert (drawn wb !! fig_id fig = Some bb) as Hhit.
  { simpl. by rewrite lookup_insert_eq. }
  pose proof (_compute_bbox_hit self fig kw2 wb bb Hk2 Hhit) as H2.
  pose proof (print_and_decode_world fig (Some "png")
                (<["bbox_inches" := VBbox bb]> kw2) wb) as Hp2.
  destruct (print_and_decode env fig (Some "png")
              (<["bbox_inches" := VBbox bb]> kw2) wb) as [r2 w2] eqn:E2.
  simpl in Hp2. subst w2.
  exists r1, wb, r2,
    (emit (EvPrintFigure (fig_id fig) (<["bbox_inches" := VBbox bb]> kw2)) wb).
  assert (trace (emit (EvPrintFigure (fig_id fig)
                         (<["bbox_inches" := VBbox bb]> kw2)) wb) =
          (trace w ++
           [EvSetDpi (fig_id fig) (dpi self); EvDraw (fig_id fig);
            EvPrintFigure (fig_id fig) (<["bbox_inches" := VBbox bb]> kw1);
            EvPrintFigure (fig_id fig) (<["bbox_inches" := VBbox bb]> kw2)])%list)
    as Htrace.
  { simpl. by rewrite <- !app_assoc. }
  split; [|split; [|split]].
  - unfold _figure_data. rewrite Hmode. fold fig kw1. by rewrite H1.
  - unfold _figure_data. rewrite Hmode. fold fig kw2. by rewrite H2.
  - exact Htrace.
  - unfold draw_count. rewrite Htrace, List.filter_app, length_app. simpl. lia.
Qed.

(** Every key of the encoding table, with its entry. *)
Lemma ANIMATION_OPTS_inv (fmt : string) entry :
  ANIMATION_OPTS (Num:=Num) (Bbox:=Bbox) !! fmt = Some entry →
  (fmt = "webm" ∨ fmt = "mp4" ∨ fmt = "gif" ∨ fmt = "scrubber") ∧
  entry.1.2 !! "extra_args" = None ∧ entry.1.2 !! "dpi" = None.
Proof.
  unfold ANIMATION_OPTS. intros Hl.
  do 4 (rewrite lookup_insert in Hl;
        case_decide; [simplify_eq; split; [tauto|split; reflexivity]|]).
  by rewrite lookup_empty in Hl.
Qed.

Lemma dpi_if_truthy_lookup (d : option Z) (k : string) :
  dpi_if_truthy (Num:=Num) (Bbox:=Bbox) d !! k = None ∨
  dpi_if_truthy (Num:=Num) (Bbox:=Bbox) d !! k =
    dpi_if_not_None (Num:=Num) (Bbox:=Bbox) d !! k.
Proof. destruct d as [[| |]|]; simpl; auto. Qed.

(** The last merge of line 223 repeats the dpi of line 218. *)
Lemma save_options_anim_options self fmt kwargs extra :
  save_options self fmt kwargs extra = anim_options self fmt kwargs extra.
Proof.
  unfold save_options, anim_options, with_fps, with_dpi, py_dict.
  apply map_eq. intros k. rewrite !lookup_union.
  destruct (dpi_if_truthy_lookup (dpi self) k) as [->| ->].
  - by rewrite (left_id None _).
  - destruct (dpi_if_not_None (dpi self) !! k) eqn:E; rewrite ?E; simpl.
    + by rewrite !union_Some_l.
    + by rewrite !(left_id None _).
Qed.


(** C7: once the request is validated to a plot and a multi-frame
    format, a Python 3 interpreter with matplotlib 1.2.x or 1.3.x makes
    [__call__] raise the descriptive exception at once: no animation was
    built, no encoder ran, the world is as before. *)
Theorem call_fails_fast_when_animation_broken self obj fmt w
    (plot : Plot Num Bbox) fmt' :
  _validate env obj fmt = Ok (Some plot, fmt') →
  fmt' ∉ static_formats →
  animation_broken env = true →
  __call__ env self obj fmt w = (Raise (Exception (broken_message)), w).
Proof.
  intros Hv Hfmt Hbroken. unfold __call__. rewrite Hv.
  rewrite bool_decide_eq_false_2 by done. by rewrite Hbroken.
Qed.

(** C8: [save] called with a non-empty [key] or [info] raises before it
    renders or opens any file: the world, and in it the file system, is
    unchanged. *)
Theorem save_rejects_metadata self obj basename fmt
    (key info : gmap string (PyVal Num Bbox)) w :
  key ≠ ∅ ∨ info ≠ ∅ →
  save env self obj basename fmt key info w =
    (Raise (Exception no_metadata_message), w).
Proof.
  intros Hmeta. unfold save.
  destruct Hmeta as [Hk|Hi].
  - rewrite (bool_decide_eq_true_2 (key ≠ ∅)) by done.
    by rewrite orb_true_r.
  - by rewrite (bool_decide_eq_true_2 (info ≠ ∅)) by done.
Qed.


(** C10: on an animation that already carries [_encoded_video] the
    function raises and does nothing else; for a format of the table
    the error is the unbound result variable.  A payload is returned
    only for animations without the attribute. *)
Theorem anim_data_encoded_video_raises self (a : Animation Num Bbox) fmt w :
  has_encoded_video a = true →
  (∃ e, _anim_data self a fmt w = (Raise e, w) ∧
        (is_Some (fmt ≫= (ANIMATION_OPTS (Num:=Num) (Bbox:=Bbox) !!.)) →
         e = UnboundLocalError "video")) ∧
  (∀ (a' : Animation Num Bbox) video w',
     _anim_data self a' fmt w = (Ok video, w') →
     has_encoded_video a' = false).
Proof.
  intros Hattr. split.
  - unfold _anim_data.
    destruct (fmt ≫= (ANIMATION_OPTS !!.)) as [[[[writer c] kwargs] extra]|].
    + rewrite Hattr. simpl. eexists. split; [done|done].
    + eexists. split; [done|]. by intros [? ?].
  - intros a' video w'. unfold _anim_data.
    destruct (fmt ≫= (ANIMATION_OPTS !!.)) as [[[[writer c] kwargs] extra]|];
      [|done].
    destruct (has_encoded_video a'); [done|done].
Qed.

End WithEnv.
End RendererFacts.

(** * Properties of the link registry and resolver *)

Section LinkFacts.
Import Links.
Variable requires_target : LinkKind → bool.
Variable valid_axes : LinkKind → list Axis → bool.
Variable mergeable : SubPlot → SubPlot → bool.
Implicit Types (reg : gmap Z (list Link)) (l : Link) (ls : list Link).
Implicit Types (tree : list SubPlot).

Lemma same_link_refl l : same_link l l = true.
Proof. unfold same_link. by rewrite !bool_decide_eq_true_2. Qed.

Lemma same_link_spec l1 l2 :
  same_link l1 l2 = true ↔
  source l1 = source l2 ∧ target l1 = target l2 ∧ kind l1 = kind l2.
Proof.
  unfold same_link. rewrite !andb_true_iff, !bool_decide_eq_true. tauto.
Qed.

Lemma same_link_trans_l l1 l2 l3 :
  same_link l1 l2 = true → same_link l1 l3 = same_link l2 l3.
Proof.
  intros (Hs & Ht & Hk)%same_link_spec. unfold same_link.
  by rewrite Hs, Ht, Hk.
Qed.

Lemma count_link_app l ls1 ls2 :
  count_link l (ls1 ++ ls2) = (count_link l ls1 + count_link l ls2)%nat.
Proof. unfold count_link. by rewrite filter_app, length_app. Qed.

Lemma count_link_same l1 l2 ls :
  same_link l1 l2 = true → count_link l1 ls = count_link l2 ls.
Proof.
  intros Hs. unfold count_link. induction ls as [|a ls IH]; [done|].
  rewrite !filter_cons, (same_link_trans_l _ _ a Hs).
  destruct (decide (same_link l2 a = true)); simpl; by rewrite IH.
Qed.

Lemma count_link_absent l ls :
  existsb (same_link l) ls = false → count_link l ls = 0%nat.
Proof.
  unfold count_link. induction ls as [|a ls IH]; [done|]. simpl.
  intros [Ha Hls]%orb_false_iff. rewrite filter_cons.
  destruct (decide (same_link l a = true)); [congruence|]. by apply IH.
Qed.

Lemma count_link_present l ls :
  existsb (same_link l) ls = true → ∃ l0, l0 ∈ ls ∧ same_link l l0 = true.
Proof.
  intros (l0 & Hin & Hs)%existsb_exists. exists l0.
  by rewrite list_elem_of_In.
Qed.

Lemma count_link_singleton l l' :
  count_link l [l'] = if same_link l l' then 1%nat else 0%nat.
Proof.
  unfold count_link. rewrite filter_cons, filter_nil.
  by destruct (same_link l l'); case_decide.
Qed.

Lemma lookup_wf reg e :
  registry_wf reg →
  Forall (λ l, source l = e) (lookup reg e) ∧
  ∀ l, l ∈ lookup reg e → count_link l (lookup reg e) = 1%nat.
Proof.
  intros Hwf. unfold lookup. destruct (reg !! e) as [ls|] eqn:E; simpl.
  - by apply Hwf.
  - split; [constructor|]. by intros l ?%elem_of_nil.
Qed.

Lemma registry_wf_empty : registry_wf ∅.
Proof. intros e ls. by rewrite lookup_empty. Qed.

(** Declaring keeps the registry invariant. *)
Lemma declare_wf reg l reg' :
  registry_wf reg →
  declare requires_target valid_axes reg l = Done reg' →
  registry_wf reg'.
Proof.
  intros Hwf. unfold declare.
  destruct (requires_target (kind l) && bool_decide (target l = None)); [done|].
  destruct (negb (valid_axes (kind l) (axes l))); [done|].
  destruct (existsb (same_link l) (lookup reg (source l))) eqn:Hex;
    intros [= <-]; [done|].
  intros e ls. rewrite lookup_insert. case_decide as He; [|by apply Hwf].
  intros [= <-]. subst e.
  destruct (lookup_wf reg (source l) Hwf) as [Hsrc Hcnt].
  split.
  - apply Forall_app. split; [done|]. by constructor.
  - intros l' [Hin| ->%list_elem_of_singleton]%elem_of_app.
    + rewrite count_link_app, (Hcnt _ Hin), count_link_singleton.
      destruct (same_link l' l) eqn:Hs; [|done].
      apply same_link_spec in Hs. exfalso.
      apply not_true_iff_false in Hex. apply Hex.
      apply existsb_exists. exists l'. split; [by apply list_elem_of_In|].
      apply same_link_spec. destruct Hs as (Ha & Hb & Hc).
      by rewrite Ha, Hb, Hc.
    + rewrite count_link_app, (count_link_absent _ _ Hex),
        count_link_singleton, same_link_refl. done.
Qed.

(** C2: on a registry satisfying its invariant, a declaration that was
    accepted can be repeated, for the same (source, target, kind), any
    number of times: the repeat returns the registry unchanged, and the
    sequence filed under the source holds exactly one entry with that
    triple. *)
Theorem declare_idempotent reg l reg1 :
  registry_wf reg →
  declare requires_target valid_axes reg l = Done reg1 →
  declare requires_target valid_axes reg1 l = Done reg1 ∧
  count_link l (lookup reg1 (source l)) = 1%nat.
Proof.
  intros Hwf Hd. pose proof (declare_wf _ _ _ Hwf Hd) as Hwf1.
  revert Hd. unfold declare.
  destruct (requires_target (kind l) && bool_decide (target l = None)); [done|].
  destruct (negb (valid_axes (kind l) (axes l))); [done|].
  destruct (existsb (same_link l) (lookup reg (source l))) eqn:Hex;
    intros [= <-].
  - rewrite Hex. split; [done|].
    destruct (count_link_present _ _ Hex) as (l0 & Hin & Hs).
    rewrite (count_link_same _ _ _ Hs).
    by apply (lookup_wf reg (source l) Hwf).
  - assert (lookup (<[source l := (lookup reg (source l) ++ [l])%list]> reg)
                   (source l)
            = (lookup reg (source l) ++ [l])%list) as Hlk.
    { unfold lookup at 1. by rewrite lookup_insert_eq. }
    rewrite Hlk. split.
    + assert (existsb (same_link l) (lookup reg (source l) ++ [l])%list = true)
        as ->;
        [|done].
      rewrite existsb_app. simpl. by rewrite same_link_refl, orb_true_r.
    + rewrite count_link_app, (count_link_absent _ _ Hex),
        count_link_singleton, same_link_refl. done.
Qed.

(** Replacing a sub-plot by one bound to the same element does not
    move any sub-plot found by element identity. *)
Lemma find_plot_insert e tree i sp j old new :
  find_plot e tree = Some (i, sp) →
  tree !! j = Some old →
  element new = element old →
  find_plot e (<[j := new]> tree) = Some (i, if decide (i = j) then new else sp).
Proof.
  unfold find_plot. intros (Hi & He & Hfirst)%list_find_Some Hj Hel.
  apply list_find_Some. split; [|split].
  - case_decide as Hij.
    + subst j. apply list_lookup_insert_eq. by eapply lookup_lt_Some.
    + by rewrite list_lookup_insert_ne.
  - case_decide as Hij; [|done]. subst j. simplify_eq. by rewrite Hel.
  - intros k y Hk Hlt. destruct (decide (k = j)) as [->|Hkj].
    + rewrite list_lookup_insert_eq in Hk by (by eapply lookup_lt_Some).
      simplify_eq. rewrite Hel. by eapply Hfirst.
    + rewrite list_lookup_insert_ne in Hk by done. by eapply Hfirst.
Qed.

Lemma find_plot_lookup e tree i sp :
  find_plot e tree = Some (i, sp) → tree !! i = Some sp ∧ element sp = e.
Proof. unfold find_plot. intros (? & ? & _)%list_find_Some. done. Qed.

Lemma element_share_axes axs (src tgt : SubPlot) :
  element (share_axes axs src tgt) = element tgt.
Proof.
  revert tgt. induction axs as [|ax axs IH]; intros tgt; [done|].
  simpl. by rewrite IH.
Qed.

(** A link aimed at neither of two sub-plots leaves both where and as
    they are. *)
Lemma apply_link_elsewhere l' tree tree2 s t i j (src tg : SubPlot) :
  target l' ≠ Some s → target l' ≠ Some t →
  find_plot s tree = Some (i, src) →
  find_plot t tree = Some (j, tg) →
  apply_link mergeable l' tree = Done tree2 →
  find_plot s tree2 = Some (i, src) ∧ find_plot t tree2 = Some (j, tg).
Proof.
  intros Hns Hnt Hfs Hft. unfold apply_link.
  destruct (find_plot (source l') tree) as [[k0 src']|]; [|done].
  destruct (target l') as [t'|]; [|by intros [= <-]].
  destruct (find_plot t' tree) as [[j' tg']|] eqn:Hft'; [|done].
  destruct (find_plot_lookup _ _ _ _ Hfs) as [Hi Hes].
  destruct (find_plot_lookup _ _ _ _ Hft) as [Hj Het].
  destruct (find_plot_lookup _ _ _ _ Hft') as [Hj' Het'].
  assert (i ≠ j') as Hij' by (intros ->; simplify_eq; congruence).
  assert (j ≠ j') as Hjj' by (intros ->; simplify_eq; congruence).
  assert (∀ new, element new = element tg' →
            find_plot s (<[j' := new]> tree) = Some (i, src) ∧
            find_plot t (<[j' := new]> tree) = Some (j, tg)) as Hins.
  { intros new Hel.
    rewrite (find_plot_insert _ _ _ _ _ _ _ Hfs Hj' Hel),
            (find_plot_insert _ _ _ _ _ _ _ Hft Hj' Hel).
    by rewrite !decide_False. }
  destruct (kind l').
  - intros [= <-]. apply Hins, element_share_axes.
  - destruct (mergeable src' tg'); [|done]. intros [= <-]. by apply Hins.
  - by intros [= <-].
Qed.

Section OneRangeLink.
Variables (l : Link) (s t : Z) (i j : nat) (src : SubPlot) (a d : Z).
Hypothesis Hkind : kind l = RangeLink.
Hypothesis Hsource : source l = s.
Hypothesis Htarget : target l = Some t.
Hypothesis Haxes : link_axes l = [AxisX].
Hypothesis Hst : s ≠ t.
Hypothesis Hxa : handles src !! "x_range" = Some a.

(** Through any sequence of links among which only [l] is aimed at the
    source or the target sub-plot, both stay in place, the source as it
    is, the target with its [y_range], and with the [x_range] of the
    source once [l] was applied. *)
Lemma apply_links_one_range_link ls : ∀ tree tg tree',
  (∀ l', l' ∈ ls → l' = l ∨ (target l' ≠ Some s ∧ target l' ≠ Some t)) →
  find_plot s tree = Some (i, src) →
  find_plot t tree = Some (j, tg) →
  handles tg !! "y_range" = Some d →
  apply_links mergeable ls tree = Done tree' →
  ∃ tg',
    find_plot s tree' = Some (i, src) ∧
    find_plot t tree' = Some (j, tg') ∧
    handles tg' !! "y_range" = Some d ∧
    (l ∈ ls ∨ handles tg !! "x_range" = Some a →
     handles tg' !! "x_range" = Some a).
Proof.
  induction ls as [|l' ls IH]; intros tree tg tree' Hothers Hfs Hft Hyd.
  - intros [= <-]. exists tg. repeat split; [done..|].
    intros [Hin|Hx]; [by apply elem_of_nil in Hin|done].
  - simpl. destruct (apply_link mergeable l' tree) as [tree2|] eqn:Hap; [|done].
    intros Hrest.
    assert (∀ l0, l0 ∈ ls →
              l0 = l ∨ (target l0 ≠ Some s ∧ target l0 ≠ Some t)) as Hothers'
      by (intros l0 Hl0; apply Hothers; by right).
    destruct (Hothers l') as [-> | [Hns Hnt]]; [by left| |].
    + (* the link itself *)
      destruct (find_plot_lookup _ _ _ _ Hfs) as [Hi Hes].
      destruct (find_plot_lookup _ _ _ _ Hft) as [Hj Het].
      assert (i ≠ j) as Hij by (intros ->; simplify_eq).
      unfold apply_link in Hap.
      rewrite Hsource, Hfs, Htarget, Hft, Hkind, Haxes in Hap.
      injection Hap as <-.
      destruct (IH (<[j := share_axes [AxisX] src tg]> tree)
                  (share_axes [AxisX] src tg) tree' Hothers')
        as (tg' & Hs' & Ht' & Hy' & Hx'); [..|done|].
      * rewrite (find_plot_insert _ _ _ _ _ _ _ Hfs Hj) by done.
        by rewrite decide_False.
      * rewrite (find_plot_insert _ _ _ _ _ _ _ Hft Hj) by done.
        by rewrite decide_True.
      * simpl. by rewrite lookup_partial_alter_ne.
      * exists tg'. repeat split; [done..|]. intros _. apply Hx'. right.
        simpl. by rewrite lookup_partial_alter_eq.
    + (* a link aimed elsewhere *)
      destruct (apply_link_elsewhere _ _ _ _ _ _ _ _ _ Hns Hnt Hfs Hft Hap)
        as [Hfs2 Hft2].
      destruct (IH tree2 tg tree' Hothers' Hfs2 Hft2 Hyd Hrest)
        as (tg' & Hs' & Ht' & Hy' & Hx').
      exists tg'. repeat split; [done..|].
      intros [Hin|Hx]; apply Hx'; [|by right].
      apply elem_of_cons in Hin as [->|Hin]; [|by left].
      exfalso. by apply Hnt.
Qed.

End OneRangeLink.


End LinkFacts.


(** * The theorems at concrete inputs *)

Section Concrete.
Import QBox Examples MoreExamples Links.

Lemma compute_bbox_cached_once_witness :
  ((∃ w1,
     _compute_bbox renderer72 fig2 png_kw world0 =
       (Ok (),
        <["bbox_inches" :=
            VBbox (described_tight_bbox (1 # 10) 72 axes_box
                     [title_measured; dot_measured])]> png_kw,
        w1) ∧
     drawn w1 =
       <[1003 := described_tight_bbox (1 # 10) 72 axes_box
                   [title_measured; dot_measured]]> ∅ ∧
     trace w1 = [EvSetDpi 1003 (Some 72); EvDraw 1003] ∧
     ∀ self' (fig' : Figure Q box) kw' w2,
       fig_id fig' = 1003 →
       tight_png kw' →
       drawn w2 !! 1003 = drawn w1 !! 1003 →
       _compute_bbox self' fig' kw' w2 =
         (Ok (),
          <["bbox_inches" :=
              VBbox (described_tight_bbox (1 # 10) 72 axes_box
                       [title_measured; dot_measured])]> kw',
          w2)) ∧
   (∀ self0 (fig0 : Figure Q box) kw0 w0 e kw1 w1,
      _compute_bbox self0 fig0 kw0 w0 = (Raise e, kw1, w1) →
      kw1 = kw0 ∧ drawn w1 = drawn w0)) ∧
  described_tight_bbox (1 # 10) 72 axes_box [title_measured; dot_measured]
    = fig2_bbox.
Proof.
  split; [|vm_compute; reflexivity].
  apply (compute_bbox_cached_once renderer72 fig2 png_kw world0 7 axes_box
           [title_measured; dot_measured] 72).
  - split; reflexivity.
  - reflexivity.
  - reflexivity.
  - reflexivity.
  - reflexivity.
  - repeat constructor.
  - right. split; [reflexivity|discriminate].
Defined.

(** C1, as stated, fails for a renderer without dpi, which is what the
    code expects ([if self.dpi], [if self.dpi is not None]): whether
    [set_dpi(None)] raises, or the draw succeeds and [1.0 / self.dpi]
    raises, the first call stores nothing, and the next call for the
    same figure sets the dpi, or draws, again instead of returning a
    stored rectangle. *)
Lemma compute_bbox_nothing_cached_without_dpi :
  (∃ e w1 w2,
     _compute_bbox renderer_no_dpi fig1_no_dpi png_kw_no_dpi world0
       = (Raise e, png_kw_no_dpi, w1) ∧
     drawn w1 !! 1001 = None ∧
     _compute_bbox renderer_no_dpi fig1_no_dpi png_kw_no_dpi w1
       = (Raise e, png_kw_no_dpi, w2) ∧
     trace w2 = [EvSetDpi 1001 None; EvSetDpi 1001 None]) ∧
  (∃ e w1 w2,
     _compute_bbox renderer_no_dpi fig1 png_kw_no_dpi world0
       = (Raise e, png_kw_no_dpi, w1) ∧
     e = TypeError "float / NoneType" ∧
     drawn w1 !! 1001 = None ∧
     _compute_bbox renderer_no_dpi fig1 png_kw_no_dpi w1
       = (Raise e, png_kw_no_dpi, w2) ∧
     draw_count w2 = 2%nat).
Proof.
  split.
  - eexists _, _, _. split; [vm_compute; reflexivity|].
    split; [reflexivity|]. split; [vm_compute; reflexivity|reflexivity].
  - eexists _, _, _. split; [vm_compute; reflexivity|].
    split; [reflexivity|]. split; [reflexivity|].
    split; [vm_compute; reflexivity|reflexivity].
Qed.

Lemma compute_bbox_other_request_witness :
  _compute_bbox renderer72 fig1 svg_kw world0 = (Ok (), svg_kw, world0).
Proof.
  refine (compute_bbox_other_request renderer72 fig1 svg_kw (VStr "tight")
            _ _ world0).
  - reflexivity.
  - right. exists (VStr "svg"). split; reflexivity.
Defined.

Lemma figure_data_survives_bbox_failure_witness :
  let kw := figure_kw renderer72 fig_no_renderer (Some "png") (VStr "tight") ∅ in
  let w1 := emit (EvDraw 1002) (emit (EvSetDpi 1002 (Some 72)) world0) in
  kw = kw ∧ drawn w1 = drawn world0 ∧
  _figure_data (env_py3_mpl13 ∅) renderer72 plot_no_renderer (Some "png")
      (VStr "tight") ∅ world0 =
    print_and_decode (env_py3_mpl13 ∅) fig_no_renderer (Some "png") kw w1.
Proof.
  intros kw w1.
  apply (figure_data_survives_bbox_failure (env_py3_mpl13 ∅) renderer72
           plot_no_renderer (Some "png") (VStr "tight") ∅ world0
           (AttributeError "_cachedRenderer") kw w1).
  - reflexivity.
  - vm_compute. reflexivity.
Defined.



Lemma call_fails_fast_when_animation_broken_witness :
  __call__ (env_py3_mpl13 ∅) renderer72 (HvElement 1) (Some "auto") world0
    = (Raise (Exception broken_message), world0).
Proof.
  apply (call_fails_fast_when_animation_broken (env_py3_mpl13 ∅) renderer72
           (HvElement 1) (Some "auto") world0 plot1 (Some "gif")).
  - reflexivity.
  - apply (bool_decide_unpack _). vm_compute. exact I.
  - reflexivity.
Defined.

Lemma save_rejects_metadata_witness :
  save (env_py3_mpl13 ∅) renderer72 (HvElement 1) "out" (Some "png")
       frame_key ∅ world0
    = (Raise (Exception no_metadata_message), world0).
Proof.
  apply (save_rejects_metadata (env_py3_mpl13 ∅)).
  left. apply (bool_decide_unpack _). vm_compute. exact I.
Defined.



Lemma anim_data_encoded_video_raises_witness :
  (∃ e, _anim_data renderer72 encoded_movie (Some "gif") world0 = (Raise e, world0) ∧
        (is_Some (Some "gif" ≫= (ANIMATION_OPTS (Num:=Q) (Bbox:=box) !!.)) →
         e = UnboundLocalError "video")) ∧
  (∀ (a' : Animation Q box) video w',
     _anim_data renderer72 a' (Some "gif") world0 = (Ok video, w') →
     has_encoded_video a' = false).
Proof.
  apply (anim_data_encoded_video_raises renderer72 encoded_movie). reflexivity.
Defined.

(** [test_data_link_idempotent]: one entry under [table1], the link
    declared first. *)
Example test_data_link_idempotent :
  ∃ reg, declared_twice = Done reg ∧
         length (lookup reg table1) = 1%nat ∧ data_link ∈ lookup reg table1.
Proof.
  eexists. split; [vm_compute; reflexivity|]. split; [reflexivity|].
  apply list_elem_of_singleton. reflexivity.
Qed.

Lemma declare_idempotent_witness :
  declare needs_target axes_ok registry1 range_link = Done registry1 ∧
  count_link range_link (lookup registry1 (source range_link)) = 1%nat.
Proof.
  apply (declare_idempotent needs_target axes_ok ∅ range_link registry1).
  - apply registry_wf_empty.
  - vm_compute. reflexivity.
Defined.



End Concrete.


(** * Further properties of the bounding-box cache *)

Section CacheFacts.
Context {Num Bbox : Type} `{!FloatOps Num} `{!BboxOps Num Bbox}.
Implicit Types (self : MPLRenderer Num) (fig : Figure Num Bbox).
Implicit Types (kw kwargs : gmap string (PyVal Num Bbox)) (w : World Num Bbox).
Implicit Types (artists : list (Artist Bbox)) (bs : list Bbox).

Lemma keep_extent_Some (o : option Bbox) b :
  keep_extent o = Some b →
  o = Some b ∧
  (num_is_zero (Bbox_width b) = false ∨ num_is_zero (Bbox_height b) = false).
Proof.
  unfold keep_extent. destruct o as [b0|]; [|done].
  destruct (negb (num_is_zero (Bbox_width b0)) ||
            negb (num_is_zero (Bbox_height b0))) eqn:E; [|done].
  intros [= <-]. split; [done|].
  apply orb_true_iff in E as [E|E]; apply negb_true_iff in E; auto.
Qed.

(** Every extent that survives the loop over the extra artists has a
    non-zero width or a non-zero height, and no artist contributes more
    than one extent. *)
Theorem bbox_filtered_nondegenerate artists bs :
  bbox_filtered artists = Ok bs →
  Forall (λ b, num_is_zero (Bbox_width b) = false ∨
               num_is_zero (Bbox_height b) = false) bs ∧
  (length bs ≤ length artists)%nat.
Proof.
  revert bs. induction artists as [|a artists IH]; intros bs; simpl.
  - intros [= <-]. split; [constructor|done].
  - destruct (clipped_extent a) as [o|] eqn:Hclip; [|done].
    destruct (bbox_filtered artists) as [tl|]; [|done].
    destruct (IH tl eq_refl) as [Hall Hlen].
    destruct (keep_extent o) as [b|] eqn:Hk; intros [= <-].
    + apply keep_extent_Some in Hk as [_ Hnz]. split; [by constructor|].
      simpl. lia.
    + split; [done|]. lia.
Qed.

(** [_compute_bbox] is idempotent on its own result: called again on the
    dictionary it returned, for any figure and renderer, it changes
    neither the dictionary nor the world. *)
Theorem compute_bbox_idempotent self fig kw w kw1 w1 :
  _compute_bbox self fig kw w = (Ok (), kw1, w1) →
  ∀ self' fig', _compute_bbox self' fig' kw1 w1 = (Ok (), kw1, w1).
Proof.
  unfold _compute_bbox at 1. intros Hc self' fig'.
  destruct (kw !! "bbox_inches") as [crop|] eqn:Hcrop; [|done].
  destruct (py_eq_str crop "tight") eqn:Ht.
  - destruct (kw !! "format") as [fmt|] eqn:Hfmt; [|done].
    destruct (py_eq_str fmt "png") eqn:Hp.
    + assert (∃ bb, kw1 = <["bbox_inches" := VBbox bb]> kw) as [bb ->].
      { destruct (drawn w !! fig_id fig).
        - simplify_eq. eauto.
        - destruct (draw_and_measure self fig w) as [[bb|?] ?]; simplify_eq.
          eauto. }
      unfold _compute_bbox. by rewrite lookup_insert_eq.
    + simplify_eq. unfold _compute_bbox. by rewrite Hcrop, Ht, Hfmt, Hp.
  - simplify_eq. unfold _compute_bbox. by rewrite Hcrop, Ht.
Qed.

Lemma world_extends_refl w : world_extends w w.
Proof. split; [by intros ??|]. split; [done|]. split; [lia|done]. Qed.

Lemma world_extends_trans w1 w2 w3 :
  world_extends w1 w2 → world_extends w2 w3 → world_extends w1 w3.
Proof.
  intros (Hc1 & Hf1 & Hn1 & Ht1) (Hc2 & Hf2 & Hn2 & Ht2).
  split; [intros k b Hk; by apply Hc2, Hc1|].
  split; [congruence|]. split; [lia|]. by etrans.
Qed.

Lemma world_extends_emit w (e : Event Num Bbox) : world_extends w (emit e w).
Proof.
  split; [by intros ??|]. split; [done|]. split; [simpl; lia|].
  simpl. by apply prefix_app_r.
Qed.

Lemma world_extends_emit_all w (es : list (Event Num Bbox)) :
  world_extends w (emit_all es w).
Proof.
  split; [by intros ??|]. split; [done|]. split; [simpl; lia|].
  simpl. by apply prefix_app_r.
Qed.

Lemma _compute_bbox_extends self fig kw w r kw1 w1 :
  _compute_bbox self fig kw w = (r, kw1, w1) → world_extends w w1.
Proof.
  unfold _compute_bbox. intros Hc.
  destruct (kw !! "bbox_inches") as [crop|];
    [|simplify_eq; apply world_extends_refl].
  destruct (py_eq_str crop "tight"); [|simplify_eq; apply world_extends_refl].
  destruct (kw !! "format") as [fmt|]; [|simplify_eq; apply world_extends_refl].
  destruct (py_eq_str fmt "png"); [|simplify_eq; apply world_extends_refl].
  destruct (drawn w !! fig_id fig) eqn:Hmiss;
    [simplify_eq; apply world_extends_refl|].
  assert (world_extends w (draw_and_measure self fig w).2) as Hw.
  { destruct (draw_and_measure_world self fig w) as [-> | ->].
    - apply world_extends_emit.
    - eapply world_extends_trans; apply world_extends_emit. }
  assert (drawn (draw_and_measure self fig w).2 = drawn w) as Hd.
  { by destruct (draw_and_measure_world self fig w) as [-> | ->]. }
  destruct (draw_and_measure self fig w) as [[bb|e] wa]; simpl in *;
    simplify_eq; [|done].
  eapply world_extends_trans; [exact Hw|].
  split; [|split; [done|split; [simpl; lia|done]]].
  intros k b Hk. simpl. rewrite lookup_insert_ne; [done|].
  intros <-. congruence.
Qed.

Lemma compute_bbox_keeps_cache_aux self fig kw w :
  world_extends w (_compute_bbox self fig kw w).2.
Proof.
  destruct (_compute_bbox self fig kw w) as [[r kw1] w1] eqn:E.
  by eapply _compute_bbox_extends.
Qed.

(** The cache only grows: whatever [_compute_bbox] does, every box
    cached before is still cached, unchanged, afterwards, and no file
    is touched. *)
Theorem compute_bbox_keeps_cache self fig kw w :
  world_extends w (_compute_bbox self fig kw w).2.
Proof. apply compute_bbox_keeps_cache_aux. Qed.

End CacheFacts.

(** * Further properties of the figure and animation encoders *)

Section EncoderFacts.
Context {Num Bbox : Type} `{!FloatOps Num} `{!BboxOps Num Bbox}.
Context (env : Env Num Bbox).
Implicit Types (self : MPLRenderer Num) (fig : Figure Num Bbox).
Implicit Types (plot : Plot Num Bbox) (a : Animation Num Bbox).
Implicit Types (kw kwargs : gmap string (PyVal Num Bbox)) (w : World Num Bbox).
Implicit Types (crop extra : PyVal Num Bbox) (fmt : option string).

Lemma figure_kw_format self fig fmt crop kwargs :
  figure_kw self fig fmt crop kwargs !! "format"
    = Some (default (fmt_val fmt) (kwargs !! "format")).
Proof.
  unfold figure_kw, py_dict. rewrite lookup_union, lookup_insert_eq.
  by destruct (kwargs !! "format").
Qed.

Lemma figure_kw_bbox_inches self fig fmt crop kwargs :
  figure_kw self fig fmt crop kwargs !! "bbox_inches"
    = Some (default crop (kwargs !! "bbox_inches")).
Proof.
  unfold figure_kw, py_dict. rewrite lookup_union.
  do 4 (rewrite lookup_insert_ne by done). rewrite lookup_insert_eq.
  by destruct (kwargs !! "bbox_inches").
Qed.

Lemma fmt_val_not_png fmt :
  fmt ≠ Some "png" → py_eq_str (Num:=Num) (Bbox:=Bbox) (fmt_val fmt) "png" = false.
Proof.
  destruct fmt as [s|]; [|done]. intros Hne. simpl.
  apply bool_decide_eq_false_2. congruence.
Qed.

Lemma _compute_bbox_skip self fig kw crop w :
  kw !! "bbox_inches" = Some crop →
  py_eq_str crop "tight" = false ∨
    (∃ f, kw !! "format" = Some f ∧ py_eq_str f "png" = false) →
  _compute_bbox self fig kw w = (Ok (), kw, w).
Proof.
  intros Hcrop Hother. unfold _compute_bbox. rewrite Hcrop.
  destruct (py_eq_str crop "tight") eqn:Ht; [|done].
  destruct Hother as [?|(f & Hf & Hpng)]; [done|].
  by rewrite Hf, Hpng.
Qed.

(** A static render in a format other than png (svg, pdf) never draws
    the canvas for a bounding box and never reads or fills the cache:
    in the default mode it is the print of the figure with the
    request dictionary as built from the arguments. *)
Theorem figure_data_other_format_prints_only self plot fmt crop kwargs w :
  mode self = ModeDefault →
  fmt ≠ Some "png" →
  kwargs !! "format" = None →
  _figure_data env self plot fmt crop kwargs w =
    print_and_decode env (state plot) fmt
      (figure_kw self (state plot) fmt crop kwargs) w ∧
  drawn (_figure_data env self plot fmt crop kwargs w).2 = drawn w ∧
  draw_count (_figure_data env self plot fmt crop kwargs w).2 = draw_count w.
Proof.
  intros Hmode Hfmt Hkw.
  assert (_figure_data env self plot fmt crop kwargs w =
          print_and_decode env (state plot) fmt
            (figure_kw self (state plot) fmt crop kwargs) w) as Heq.
  { unfold _figure_data. rewrite Hmode.
    rewrite (_compute_bbox_skip self (state plot) _
               (default crop (kwargs !! "bbox_inches")) w); [done| |].
    - apply figure_kw_bbox_inches.
    - right. exists (fmt_val fmt). split.
      + by rewrite figure_kw_format, Hkw.
      + by apply fmt_val_not_png. }
  rewrite Heq, print_and_decode_world. split; [done|]. split; [done|].
  unfold draw_count. simpl. rewrite List.filter_app, length_app. simpl. lia.
Qed.

(** The dpi keyword that [__call__] hands to [_figure_data] is
    redundant: the request dictionary already holds the renderer's dpi,
    so passing it or not gives the same dictionary. *)
Theorem figure_kw_dpi_kwarg_redundant self fig fmt crop :
  figure_kw self fig fmt crop (dpi_if_truthy (dpi self)) =
  figure_kw self fig fmt crop ∅.
Proof.
  unfold figure_kw, py_dict. apply map_eq. intros k.
  rewrite !lookup_union, lookup_empty, (left_id None _).
  destruct (decide (k = "dpi")) as [->|Hk].
  - do 3 (rewrite lookup_insert_ne by done). rewrite lookup_insert_eq.
    by destruct (dpi self) as [[| |]|].
  - assert (dpi_if_truthy (Num:=Num) (Bbox:=Bbox) (dpi self) !! k = None) as ->.
    { destruct (dpi self) as [[| |]|]; simpl;
        rewrite ?lookup_empty, ?lookup_singleton_ne; done. }
    by rewrite (left_id None _).
Qed.

Lemma _figure_data_nbagg_world self plot fmt crop kwargs w :
  mode self = ModeNbagg →
  ∃ w',
    _figure_data env self plot fmt crop kwargs w = (Ok (PText ""), w') ∧
    counter w' =
      match new_figure_manager plot (counter w) with
      | Some _ => counter w + 1
      | None => counter w
      end
    ∧ drawn w' = drawn w ∧ files w' = files w ∧
    draw_count w' = draw_count w.
Proof.
  intros Hmode. unfold _figure_data, get_figure_manager. rewrite Hmode.
  assert (∀ n, List.filter is_draw (EvMouseInit (Num:=Num) (Bbox:=Bbox) <$> n)
               = []) as Hmi.
  { intros n. induction n; [done|]. simpl. done. }
  destruct (new_figure_manager plot (counter w)) as [m|]; eexists;
    (split; [reflexivity|]); simpl; repeat split;
    unfold draw_count; simpl;
    rewrite ?List.filter_app, ?length_app, ?Hmi; simpl; lia.
Qed.

(** In nbagg mode [_figure_data] always returns the empty string,
    whatever the format; the counter grows by one exactly when a
    manager was created, so successive figures get successive numbers;
    the cache and the files are not touched and nothing is drawn. *)
Theorem figure_data_nbagg self plot fmt crop kwargs w :
  mode self = ModeNbagg →
  ∃ w',
    _figure_data env self plot fmt crop kwargs w = (Ok (PText ""), w') ∧
    counter w' =
      match new_figure_manager plot (counter w) with
      | Some _ => counter w + 1
      | None => counter w
      end
    ∧ drawn w' = drawn w ∧ files w' = files w ∧
    draw_count w' = draw_count w.
Proof. apply _figure_data_nbagg_world. Qed.

Lemma _compute_bbox_draws self fig kw w :
  (draw_count (_compute_bbox self fig kw w).2 ≤ S (draw_count w))%nat ∧
  (is_Some (drawn w !! fig_id fig) →
   draw_count (_compute_bbox self fig kw w).2 = draw_count w).
Proof.
  unfold _compute_bbox.
  destruct (kw !! "bbox_inches") as [c|]; [|simpl; split; [lia|done]].
  destruct (py_eq_str c "tight"); [|simpl; split; [lia|done]].
  destruct (kw !! "format") as [f|]; [|simpl; split; [lia|done]].
  destruct (py_eq_str f "png"); [|simpl; split; [lia|done]].
  destruct (drawn w !! fig_id fig) eqn:Hd; [simpl; split; [lia|done]|].
  split; [|by intros [? ?]].
  assert (draw_count (draw_and_measure self fig w).2 ≤ S (draw_count w))%nat
    as Hw.
  { destruct (draw_and_measure_world self fig w) as [-> | ->];
      unfold draw_count; simpl;
      rewrite !List.filter_app, !length_app; simpl; lia. }
  by destruct (draw_and_measure self fig w) as [[bb|e] wa].
Qed.

(** One call of [_figure_data] draws the canvas at most once for the
    bounding box, and not at all when the figure's box is cached. *)
Theorem figure_data_draws_at_most_once self plot fmt crop kwargs w :
  (draw_count (_figure_data env self plot fmt crop kwargs w).2
     ≤ S (draw_count w))%nat ∧
  (is_Some (drawn w !! fig_id (state plot)) →
   draw_count (_figure_data env self plot fmt crop kwargs w).2 = draw_count w).
Proof.
  destruct (mode self) eqn:Hmode.
  - unfold _figure_data. rewrite Hmode.
    pose proof (_compute_bbox_draws self (state plot)
                  (figure_kw self (state plot) fmt crop kwargs) w) as Hd.
    destruct (_compute_bbox self (state plot)
                (figure_kw self (state plot) fmt crop kwargs) w)
      as [[r kw1] w1].
    simpl in Hd.
    assert (draw_count (print_and_decode env (state plot) fmt kw1 w1).2
            = draw_count w1) as ->; [|done].
    rewrite print_and_decode_world. unfold draw_count. simpl.
    rewrite List.filter_app, length_app. simpl. lia.
  - unfold _figure_data. rewrite Hmode.
    assert (∀ w', draw_count w' = draw_count w →
                  (draw_count w' ≤ S (draw_count w))%nat ∧
                  (is_Some (drawn w !! fig_id (state plot)) →
                   draw_count w' = draw_count w)) as Hsame
      by (intros w' ->; split; [lia|done]).
    destruct (set_dpi (state plot)); [case_bool_decide|]; apply Hsame;
      unfold draw_count; simpl;
      rewrite !List.filter_app, !length_app; simpl; lia.
  - destruct (_figure_data_nbagg_world self plot fmt crop kwargs w Hmode)
      as (w' & -> & _ & _ & _ & Hd).
    simpl. rewrite Hd. split; [lia|done].
Qed.

End EncoderFacts.

(** * Further properties of rendering requests *)

Section CallFacts.
Context {Num Bbox : Type} `{!FloatOps Num} `{!BboxOps Num Bbox}.
Context (env : Env Num Bbox).
Implicit Types (self : MPLRenderer Num) (fig : Figure Num Bbox).
Implicit Types (plot : Plot Num Bbox) (a : Animation Num Bbox).
Implicit Types (kw kwargs : gmap string (PyVal Num Bbox)) (w : World Num Bbox).
Implicit Types (crop extra : PyVal Num Bbox) (fmt : option string).

Lemma union_singleton_present (m : gmap string (PyVal Num Bbox)) k v v' :
  m !! k = Some v → m ∪ {[ k := v' ]} = m.
Proof.
  intros Hk. apply map_eq. intros i. rewrite lookup_union.
  destruct (decide (i = k)) as [->|Hne].
  - by rewrite Hk, lookup_singleton_eq.
  - rewrite lookup_singleton_ne by done. by rewrite (right_id None _).
Qed.


(** For a validated multi-frame format that has no entry in the
    encoding table, [__call__] first builds the animation and only then
    raises the KeyError: the encoder never runs. *)
Theorem call_unknown_animation_format self obj fmt w plot fmt' a :
  _validate env obj fmt = Ok (Some plot, fmt') →
  fmt' ∉ static_formats →
  animation_broken env = false →
  fmt' ≫= (ANIMATION_OPTS (Num:=Num) (Bbox:=Bbox) !!.) = None →
  anim plot (fps self) = Ok a →
  __call__ env self obj fmt w =
    (Raise (KeyError (fmt_str fmt')), emit (EvAnim (plot_id plot) (fps self)) w).
Proof.
  intros Hv Hns Hok Htab Ha. unfold __call__. rewrite Hv.
  rewrite bool_decide_eq_false_2 by done. rewrite Hok, Ha.
  unfold _anim_data. by rewrite Htab.
Qed.


Lemma drop_last_two_three (s : string) (c1 c2 c3 : Ascii.ascii) :
  drop_last_two s = String c1 (String c2 (String c3 EmptyString)) ↔
  ∃ d1 d2, s = String c1 (String c2 (String c3
                 (String d1 (String d2 EmptyString)))).
Proof.
  unfold drop_last_two.
  destruct s as [|a1 [|a2 [|a3 [|a4 [|a5 [|a6 s']]]]]]; simpl.
  1-5: split; [done|]; by intros (? & ? & ?).
  - split.
    + intros [= -> -> ->]. eauto.
    + by intros (? & ? & [= -> -> -> -> ->]).
  - split; [done|]. by intros (? & ? & ?).
Qed.

Lemma drop_last_two_prefix (s t : string) :
  String.length t = 3%nat →
  drop_last_two s = t ↔
  ∃ d1 d2, s = t ++ String d1 (String d2 EmptyString).
Proof.
  destruct t as [|c1 [|c2 [|c3 [|c4 t]]]]; try done. intros _.
  apply drop_last_two_three.
Qed.

(** The broken pairs are exactly Python 3 with a version string made of
    ["1.2"] or ["1.3"] and two more characters: ["1.3.1"] is caught,
    while ["1.3"], ["1.1.1"] and ["1.3.10"] are not. *)
Theorem animation_broken_iff :
  animation_broken env = true ↔
  py_major env = 3 ∧
  ∃ d1 d2 : Ascii.ascii,
    mpl_version env = "1.2" ++ String d1 (String d2 EmptyString) ∨
    mpl_version env = "1.3" ++ String d1 (String d2 EmptyString).
Proof.
  unfold animation_broken.
  rewrite andb_true_iff, !bool_decide_eq_true.
  rewrite !elem_of_cons, elem_of_nil.
  rewrite !drop_last_two_prefix by done. split.
  - intros [Hm [Hv|[Hv|[]]]]; (split; [done|]);
      destruct Hv as (d1 & d2 & Hv); exists d1, d2; auto.
  - intros [Hm (d1 & d2 & [Hv|Hv])]; (split; [done|]);
      [left|right; left]; eauto.
Qed.

Lemma print_and_decode_extends fig fmt kw w :
  world_extends w (print_and_decode env fig fmt kw w).2.
Proof. rewrite print_and_decode_world. apply world_extends_emit. Qed.

Lemma _figure_data_extends self plot fmt crop kwargs w :
  world_extends w (_figure_data env self plot fmt crop kwargs w).2.
Proof.
  unfold _figure_data. destruct (mode self).
  - pose proof (compute_bbox_keeps_cache_aux self (state plot)
                  (figure_kw self (state plot) fmt crop kwargs) w) as Hc.
    destruct (_compute_bbox _ _ _ _) as [[r kw1] w1]. simpl in Hc.
    eapply world_extends_trans; [exact Hc|]. apply print_and_decode_extends.
  - assert (world_extends w
              (emit (EvMpld3 (fig_id (state plot)))
                 (emit (EvSetDpi (fig_id (state plot)) (dpi self)) w))) as He
      by (eapply world_extends_trans; apply world_extends_emit).
    destruct (set_dpi (state plot)); [|apply world_extends_emit].
    case_bool_decide; exact He.
  - unfold get_figure_manager.
    destruct (new_figure_manager plot (counter w)); simpl.
    + eapply world_extends_trans; [apply world_extends_emit_all|].
      eapply world_extends_trans; [|apply world_extends_emit].
      split; [by intros ??|]. split; [done|]. split; simpl; [lia|done].
    + apply world_extends_emit_all.
Qed.

Lemma _anim_data_extends self a fmt w :
  world_extends w (_anim_data self a fmt w).2.
Proof.
  unfold _anim_data.
  destruct (fmt ≫= (ANIMATION_OPTS !!.)) as [[[[writer c] kwargs] extra]|];
    [|apply world_extends_refl].
  destruct (has_encoded_video a); simpl; [apply world_extends_refl|].
  destruct (anim_save a _ _); apply world_extends_emit.
Qed.

Lemma __call___extends self obj fmt w :
  world_extends w (__call__ env self obj fmt w).2.
Proof.
  unfold __call__.
  destruct (_validate env obj fmt) as [[[plot|] fmt']|e];
    [| apply world_extends_refl | apply world_extends_refl].
  case_bool_decide.
  - pose proof (_figure_data_extends self plot fmt' (VStr "tight")
                  (dpi_if_truthy (dpi self)) w) as Hf.
    by destruct (_figure_data _ _ _ _ _ _ _) as [[data|?] w1].
  - destruct (animation_broken env); [apply world_extends_refl|].
    destruct (anim plot (fps self)) as [a|]; [|apply world_extends_emit].
    pose proof (_anim_data_extends self a fmt'
                  (emit (EvAnim (plot_id plot) (fps self)) w)) as Ha.
    destruct (_anim_data _ _ _ _) as [[video|?] w2]; simpl in *;
      (eapply world_extends_trans; [apply world_extends_emit|exact Ha]).
Qed.

(** Rendering never writes a file and never drops or replaces a cached
    box: after [__call__], whatever it returned or raised, every box
    cached before is still cached, the files are as they were, and the
    earlier events are a prefix of the log. *)
Theorem call_keeps_cache_and_files self obj fmt w :
  world_extends w (__call__ env self obj fmt w).2.
Proof. apply __call___extends. Qed.

End CallFacts.

(** * Further properties of [save] and [plot_options] *)

Section SaveFacts.
Context {Num Bbox : Type} `{!FloatOps Num} `{!BboxOps Num Bbox}.
Context (env : Env Num Bbox).
Implicit Types (self : MPLRenderer Num) (obj : HvObj).
Implicit Types (key info options : gmap string (PyVal Num Bbox)).
Implicit Types (w : World Num Bbox) (fmt ext : option string).

Lemma save_without_metadata self obj basename fmt w :
  save env self obj basename fmt ∅ ∅ w =
    match __call__ env self obj fmt w with
    | (Raise e, w1) => (Raise e, w1)
    | (Ok None, w1) => (Ok (), w1)
    | (Ok (Some (data, (ext, mime))), w1) =>
        let filename := (basename ++ "." ++ fmt_str ext)%string in
        let w2 := open_wb filename w1 in
        match encode env data ext mime with
        | Raise e => (Raise e, w2)
        | Ok bytes => (Ok (), write_file filename bytes w2)
        end
    end.
Proof.
  unfold save.
  rewrite (bool_decide_eq_false_2 (∅ ≠ ∅)) by (intros Hne; by apply Hne).
  done.
Qed.

(** A successful [save] creates or replaces exactly one file, named
    after the base name and the format the request resolved to (not
    the one asked for), holding the encoded bytes; the other files are
    untouched. *)
Theorem save_writes_one_file self obj basename fmt w data ext mime w1 bytes :
  __call__ env self obj fmt w = (Ok (Some (data, (ext, mime))), w1) →
  encode env data ext mime = Ok bytes →
  ∃ w2,
    save env self obj basename fmt ∅ ∅ w = (Ok (), w2) ∧
    files w2 = <[(basename ++ "." ++ fmt_str ext)%string := bytes]> (files w).
Proof.
  intros Hc He.
  pose proof (__call___extends env self obj fmt w) as (_ & Hf & _).
  rewrite Hc in Hf. simpl in Hf.
  eexists. split.
  - rewrite save_without_metadata, Hc. simpl. by rewrite He.
  - simpl. by rewrite insert_insert_eq, Hf.
Qed.

(** When the encoding of the rendered payload fails, [save] has
    already opened the file for writing: the exception propagates and
    the file is left empty, whatever it held before. *)
Theorem save_encode_failure_truncates self obj basename fmt w data ext mime
    w1 e :
  __call__ env self obj fmt w = (Ok (Some (data, (ext, mime))), w1) →
  encode env data ext mime = Raise e →
  ∃ w2,
    save env self obj basename fmt ∅ ∅ w = (Raise e, w2) ∧
    files w2 = <[(basename ++ "." ++ fmt_str ext)%string := []]> (files w).
Proof.
  intros Hc He.
  pose proof (__call___extends env self obj fmt w) as (_ & Hf & _).
  rewrite Hc in Hf. simpl in Hf.
  eexists. split.
  - rewrite save_without_metadata, Hc. simpl. by rewrite He.
  - simpl. by rewrite Hf.
Qed.

(** When the rendering raises, or there is nothing to render, [save]
    touches no file: it propagates the exception, or returns. *)
Theorem save_without_rendering_touches_nothing self obj basename fmt w r w1 :
  __call__ env self obj fmt w = (r, w1) →
  r = Ok None ∨ (∃ e, r = Raise e) →
  save env self obj basename fmt ∅ ∅ w =
    (match r with Raise e => Raise e | Ok _ => Ok () end, w1) ∧
  files w1 = files w.
Proof.
  intros Hc Hr.
  pose proof (__call___extends env self obj fmt w) as (_ & Hf & _).
  rewrite Hc in Hf. simpl in Hf. split; [|done].
  rewrite save_without_metadata, Hc.
  by destruct Hr as [-> | [e ->]].
Qed.

(** Whatever happens, [save] changes no file other than one named
    [basename.<ext>], and every box cached before is still cached. *)
Theorem save_touches_only_its_file self obj basename fmt key info w name :
  (∀ ext, name ≠ (basename ++ "." ++ fmt_str ext)%string) →
  files (save env self obj basename fmt key info w).2 !! name = files w !! name ∧
  cache_kept w (save env self obj basename fmt key info w).2.
Proof.
  intros Hname. unfold save.
  destruct (bool_decide (info ≠ ∅) || bool_decide (key ≠ ∅));
    [split; [done|by intros ??]|].
  pose proof (__call___extends env self obj fmt w) as (Hk & Hf & _).
  destruct (__call__ env self obj fmt w) as [[[[data [ext mime]]|]|e] w1];
    simpl in *; [|by rewrite Hf|by rewrite Hf].
  destruct (encode env data ext mime); simpl;
    rewrite ?lookup_insert_ne by (apply not_eq_sym, Hname);
    by rewrite Hf.
Qed.

(** An explicit [fig_inches] option is returned unscaled, yet it is
    still scaled first and the failure of that scaling is not
    discarded: a tuple or list of fewer than two elements makes
    [plot_options] raise. *)
Theorem plot_options_short_sequence obj percent_size w options xs :
  lookup_options env (options_target obj) = Ok options →
  options !! "fig_inches" = Some (VTuple xs) ∨
    options !! "fig_inches" = Some (VList xs) →
  (length xs < 2)%nat →
  ∃ e, plot_options env obj percent_size w = (Raise e, w) ∧
       (e = IndexError ∨ ∃ what, e = TypeError what).
Proof.
  intros Hl Hopt Hlen. unfold plot_options. fold (options_target obj).
  rewrite Hl.
  assert (∃ e, scale_pair xs (num_div percent_size (num_of_Z 100)) = Raise e ∧
               (e = IndexError ∨ ∃ what, e = TypeError what))
    as (e & He & Hkind).
  { destruct xs as [|x [|y xs]]; simpl in *; [eauto| |lia].
    unfold py_mul. destruct x; eauto. }
  exists e. split; [|done].
  unfold scaled_fig_inches. by destruct Hopt as [-> | ->]; simpl; rewrite He.
Qed.

(** Every explicit format declared in [mode_formats] has a route: a
    figure format is a static format, a holomap format is static or has
    an entry in the encoding table.  The scrubber entry of that table
    is declared by no mode. *)
Theorem declared_formats_are_routed (kind : FormatKind) (m : Mode)
    (fmt : string) :
  (Some fmt ∈ mode_formats kind m → fmt ≠ "auto" →
   Some fmt ∈ static_formats ∨
   (kind = KindHolomap ∧
    is_Some (ANIMATION_OPTS (Num:=Num) (Bbox:=Bbox) !! fmt))) ∧
  Some "scrubber" ∉ mode_formats kind m.
Proof.
  split.
  - intros Hin Hauto.
    destruct kind, m; simpl in Hin;
      repeat (apply elem_of_cons in Hin as [Hin|Hin];
              [simplify_eq; try done;
               first [ left; apply (bool_decide_unpack _); vm_compute; exact I
                     | right; split; [done|]; eexists; reflexivity ]
              |]);
      by apply elem_of_nil in Hin.
  - apply (bool_decide_unpack _). by destruct kind, m.
Qed.

End SaveFacts.

(** * The further properties at concrete inputs *)

Section MoreConcrete.
Import QBox Examples MoreExamples Links.

Lemma bbox_filtered_nondegenerate_witness :
  Forall (λ b, num_is_zero (Bbox_width b) = false ∨
               num_is_zero (Bbox_height b) = false) [legend_box] ∧
  (length [legend_box] ≤ length [legend; dot])%nat.
Proof.
  apply (bbox_filtered_nondegenerate [legend; dot] [legend_box]).
  vm_compute. reflexivity.
Defined.

Lemma compute_bbox_idempotent_witness :
  _compute_bbox renderer_no_dpi fig_no_renderer png_kw_cached world1
    = (Ok (), png_kw_cached, world1).
Proof.
  refine (compute_bbox_idempotent renderer72 fig1 png_kw world0
            png_kw_cached world1 _ renderer_no_dpi fig_no_renderer).
  vm_compute. reflexivity.
Defined.

Lemma figure_data_other_format_prints_only_witness :
  _figure_data (env_py3_mpl13 ∅) renderer72 plot1 (Some "svg") (VStr "tight") ∅
      world0 =
    print_and_decode (env_py3_mpl13 ∅) fig1 (Some "svg") svg_kw world0 ∧
  drawn (_figure_data (env_py3_mpl13 ∅) renderer72 plot1 (Some "svg")
           (VStr "tight") ∅ world0).2 = drawn world0 ∧
  draw_count (_figure_data (env_py3_mpl13 ∅) renderer72 plot1 (Some "svg")
                (VStr "tight") ∅ world0).2 = draw_count world0.
Proof.
  apply (figure_data_other_format_prints_only (env_py3_mpl13 ∅) renderer72
           plot1 (Some "svg") (VStr "tight") ∅ world0).
  - reflexivity.
  - discriminate.
  - reflexivity.
Defined.

Lemma figure_data_nbagg_witness :
  ∃ w',
    _figure_data (env_py3_mpl13 ∅) renderer_nbagg plot1 (Some "html")
        (VStr "tight") ∅ world0 = (Ok (PText ""), w') ∧
    counter w' =
      match new_figure_manager plot1 (counter world0) with
      | Some _ => counter world0 + 1
      | None => counter world0
      end
    ∧ drawn w' = drawn world0 ∧ files w' = files world0 ∧
    draw_count w' = draw_count world0.
Proof.
  apply (figure_data_nbagg (env_py3_mpl13 ∅) renderer_nbagg plot1 (Some "html")
           (VStr "tight") ∅ world0).
  reflexivity.
Defined.

Lemma figure_data_twice_draws_once_witness :
  ∃ r1 w1 r2 w2,
    _figure_data (env_py3_mpl13 ∅) renderer72 plot1 (Some "png") (VStr "tight")
        ∅ world0 = (r1, w1) ∧
    _figure_data (env_py3_mpl13 ∅) renderer72 plot1 (Some "png") (VStr "tight")
        ∅ w1 = (r2, w2) ∧
    trace w2 =
      (trace world0 ++
       [EvSetDpi 1001 (Some 72); EvDraw 1001;
        EvPrintFigure 1001 (<["bbox_inches" := VBbox fig1_bbox]> png_kw);
        EvPrintFigure 1001 (<["bbox_inches" := VBbox fig1_bbox]> png_kw)])%list ∧
    draw_count w2 = S (draw_count world0).
Proof.
  apply (figure_data_twice_draws_once (env_py3_mpl13 ∅) renderer72 plot1 ∅ ∅
           world0 fig1_bbox).
  - reflexivity.
  - split; reflexivity.
  - split; reflexivity.
  - reflexivity.
  - reflexivity.
  - vm_compute. reflexivity.
Defined.


Lemma call_unknown_animation_format_witness :
  __call__ env_py2 renderer72 (HvElement 1) None world0 =
    (Raise (KeyError "None"), emit (EvAnim 3001 20) world0).
Proof.
  apply (call_unknown_animation_format env_py2 renderer72 (HvElement 1) None
           world0 plot1 None movie).
  - reflexivity.
  - apply (bool_decide_unpack _). vm_compute. exact I.
  - reflexivity.
  - reflexivity.
  - reflexivity.
Defined.


Lemma save_writes_one_file_witness :
  ∃ w2,
    save env_py2 renderer72 (HvElement 1) "out" (Some "png") ∅ ∅ world0
      = (Ok (), w2) ∧
    files w2 = <["out.png" := png_bytes]> (files world0).
Proof.
  apply (save_writes_one_file env_py2 renderer72 (HvElement 1) "out"
           (Some "png") world0 (PBytes png_bytes) (Some "png") "image/png"
           (emit (EvPrintFigure 1001 png_kw_cached) world1) png_bytes).
  - vm_compute. reflexivity.
  - reflexivity.
Defined.

Lemma save_encode_failure_truncates_witness :
  ∃ w2,
    save env_failing_encode renderer72 (HvElement 1) "out" (Some "png") ∅ ∅
         world0 = (Raise (ExternalError "encode"), w2) ∧
    files w2 = <["out.png" := []]> (files world0).
Proof.
  apply (save_encode_failure_truncates env_failing_encode renderer72
           (HvElement 1) "out" (Some "png") world0 (PBytes png_bytes)
           (Some "png") "image/png"
           (emit (EvPrintFigure 1001 png_kw_cached) world1)
           (ExternalError "encode")).
  - vm_compute. reflexivity.
  - reflexivity.
Defined.

Lemma save_without_rendering_touches_nothing_witness :
  save env_py2 renderer72 HvNone "out" (Some "png") ∅ ∅ world0
    = (Ok (), world0) ∧
  files world0 = files world0.
Proof.
  apply (save_without_rendering_touches_nothing env_py2 renderer72 HvNone "out"
           (Some "png") world0 (Ok None) world0).
  - reflexivity.
  - left. reflexivity.
Defined.

Lemma save_touches_only_its_file_witness :
  files (save env_py2 renderer72 (HvElement 1) "out" (Some "png") ∅ ∅ world0).2
    !! "fig.log" = files world0 !! "fig.log" ∧
  cache_kept world0
    (save env_py2 renderer72 (HvElement 1) "out" (Some "png") ∅ ∅ world0).2.
Proof.
  apply (save_touches_only_its_file env_py2 renderer72 (HvElement 1) "out"
           (Some "png") ∅ ∅ world0 "fig.log").
  intros ext. discriminate.
Defined.

Lemma plot_options_short_sequence_witness :
  ∃ e, plot_options (env_py3_mpl13 one_inch_options) (HvElement 1) (inject_Z 50)
         world0 = (Raise e, world0) ∧
       (e = IndexError ∨ ∃ what, e = TypeError what).
Proof.
  apply (plot_options_short_sequence (env_py3_mpl13 one_inch_options)
           (HvElement 1) (inject_Z 50) world0 one_inch_options [VInt 4]).
  - reflexivity.
  - left. reflexivity.
  - simpl. lia.
Defined.

End MoreConcrete.
